(** * MediXtract schema fusion: a shallow embedding of [fuse_schema.py]

    The development embeds the fusion tool of the Schema_Editor repository
    ([Schema_Versions/fusing/fuse_schema.py]): the JSON values it loads, the
    Python operations it applies to them (with the exceptions they raise),
    the normaliser [convert_performance_structure], the placeholder factory
    [create_placeholder_variable], the fusion loop and the reporting tail of
    [fuse_schemas], and the entry point [main].  The theorems at the end of
    the file settle the properties stated for the tool. *)

From Stdlib Require Import String Ascii List ZArith Bool Arith Lia.
From Stdlib Require Import Sorted Permutation.
From Stdlib Require DecimalString DecimalNat.
Import ListNotations.
Open Scope string_scope.
Open Scope list_scope.

(* ================================================================== *)
(** ** JSON values, as [json.load] builds them *)
(* ================================================================== *)

(** A JSON number is loaded as an [int] or as a [float]; a finite float is
    [m * 2^e], and only its being zero or not is ever observed here. *)
#[warnings="-register-all"]
Inductive json : Type :=
| JNull
| JBool (b : bool)
| JInt (z : Z)
| JFloat (m e : Z)
| JStr (s : string)
| JArr (l : list json)
| JObj (d : list (string * json)).

(** A Python [dict] keeps its keys in insertion order: an association list
    whose keys are pairwise distinct. *)
Definition dict := list (string * json).

Definition dict_keys (d : dict) : list string := map fst d.

Fixpoint dict_get (k : string) (d : dict) : option json :=
  match d with
  | [] => None
  | (k', v) :: d' => if String.eqb k k' then Some v else dict_get k d'
  end.

Definition dict_mem (k : string) (d : dict) : bool :=
  match dict_get k d with Some _ => true | None => false end.

(** [d[k] = v]: an existing key keeps its place, a new key goes last. *)
Fixpoint dict_set (k : string) (v : json) (d : dict) : dict :=
  match d with
  | [] => [(k, v)]
  | (k', v') :: d' =>
      if String.eqb k k' then (k, v) :: d' else (k', v') :: dict_set k v d'
  end.

(* ================================================================== *)
(** ** Exceptions and the result monad *)
(* ================================================================== *)

Inductive exn : Type :=
| TypeError
| AttributeError
| KeyError
| ZeroDivisionError
| FileNotFoundError
| JSONDecodeError
| PermissionError
| OSError.

Inductive res (A : Type) : Type :=
| Ok (a : A)
| Raise (e : exn).
Arguments Ok {A} a.
Arguments Raise {A} e.

Definition bind {A B : Type} (c : res A) (f : A -> res B) : res B :=
  match c with
  | Ok a => f a
  | Raise e => Raise e
  end.

Notation "x <- c ;; k" := (bind c (fun x => k))
  (at level 61, c at next level, right associativity).
Notation "' pat <- c ;; k" := (bind c (fun x => match x with pat => k end))
  (at level 61, pat pattern, c at next level, right associativity).

(* ================================================================== *)
(** ** The Python operations the tool applies to loaded values *)
(* ================================================================== *)

(** Truth value of an object in a condition. *)
Definition py_truthy (j : json) : bool :=
  match j with
  | JNull => false
  | JBool b => b
  | JInt z => negb (Z.eqb z 0)
  | JFloat m _ => negb (Z.eqb m 0)
  | JStr s => negb (String.eqb s "")
  | JArr l => match l with [] => false | _ => true end
  | JObj d => match d with [] => false | _ => true end
  end.

Definition is_substring (k s : string) : bool :=
  match index 0 k s with Some _ => true | None => false end.

Definition json_is_str (k : string) (j : json) : bool :=
  match j with JStr s => String.eqb k s | _ => false end.

(** [k in j] for a string [k]: key membership in a dict, element membership
    in a list, substring test in a string, [TypeError] elsewhere. *)
Definition py_in (k : string) (j : json) : res bool :=
  match j with
  | JObj d => Ok (dict_mem k d)
  | JArr l => Ok (existsb (json_is_str k) l)
  | JStr s => Ok (is_substring k s)
  | _ => Raise TypeError
  end.

(** [j[k]] for a string [k]. *)
Definition py_getitem (j : json) (k : string) : res json :=
  match j with
  | JObj d => match dict_get k d with Some v => Ok v | None => Raise KeyError end
  | _ => Raise TypeError
  end.

(** [j[k] = v] for a string [k]; the result is the mutated object. *)
Definition py_setitem (j : json) (k : string) (v : json) : res json :=
  match j with
  | JObj d => Ok (JObj (dict_set k v d))
  | _ => Raise TypeError
  end.

(** [len(j)].  A string is held as its UTF-8 bytes, so the length of a
    string with non-ASCII characters is not Python's; the tool only prints it
    and tests it against zero. *)
Definition py_len (j : json) : res nat :=
  match j with
  | JObj d => Ok (List.length d)
  | JArr l => Ok (List.length l)
  | JStr s => Ok (String.length s)
  | _ => Raise TypeError
  end.

(** [j.items()]; [j.keys()] is its first projection. *)
Definition py_items (j : json) : res dict :=
  match j with
  | JObj d => Ok d
  | _ => Raise AttributeError
  end.

Definition py_keys (j : json) : res (list string) :=
  d <- py_items j ;; Ok (dict_keys d).

(** [k in j and j[k]], as a condition: the subscript is evaluated only when
    the membership test is true. *)
Definition py_in_and_truthy (k : string) (j : json) : res bool :=
  b <- py_in k j ;;
  if b then v <- py_getitem j k ;; Ok (py_truthy v) else Ok false.

(* ================================================================== *)
(** ** The ambient clock *)
(* ================================================================== *)

(** [datetime.now()] is a read of the ambient clock.  A clock is the sequence
    of ISO readings it will give; the state is the number of reads so far. *)
Definition clock := nat -> string.

(* ================================================================== *)
(** ** [create_placeholder_variable] *)
(* ================================================================== *)

Definition placeholder_notes : string :=
  "This variable was automatically created as a placeholder because it existed in performance data but not in the main schema. Please update with proper definition, type, and metadata.".

Definition create_placeholder_variable (var_name : string) : json :=
  JObj
    [ ("anyOf", JArr [ JObj [("type", JStr "string")];
                       JObj [("type", JStr "null")] ]);
      ("default", JNull);
      ("description",
        JStr ("Placeholder for " ++ var_name
              ++ " - Please update with proper definition")%string);
      ("group_id", JStr "unknown");
      ("notes", JStr placeholder_notes) ].

(* ================================================================== *)
(** ** [convert_performance_structure] *)
(* ================================================================== *)

Definition property_mapping : list (string * string) :=
  [ ("correction", "correction");
    ("standardized", "standardized");
    ("filled_blank", "filled_blank");
    ("improved_comment", "improved_comment");
    ("missing_docs", "missing_doc");
    ("contradictions", "contradictions");
    ("questioned", "questioned") ].

(** The flags a normalised record may carry: [match] and the new names of
    the mapping. *)
Definition flag_vocabulary : list string :=
  "match" :: map snd property_mapping.

(** The inner [for old_key, new_key in property_mapping.items()] loop. *)
Fixpoint unmatched_loop (unmatched_data : json) (pairs : list (string * string))
    (patient_performance : dict) : res dict :=
  match pairs with
  | [] => Ok patient_performance
  | (old_key, new_key) :: pairs' =>
      b <- py_in_and_truthy old_key unmatched_data ;;
      unmatched_loop unmatched_data pairs'
        (if b then dict_set new_key (JBool true) patient_performance
         else patient_performance)
  end.

(** The [if / elif / elif] chain on one subject's annotation: the value of
    [patient_performance] before the timestamp is added. *)
Definition patient_flags (patient_data : json) : res dict :=
  m <- py_in_and_truthy "matched" patient_data ;;
  if m then Ok [("match", JBool true)]
  else
    b <- py_in_and_truthy "blank" patient_data ;;
    if b then Ok []
    else
      u <- py_in "unmatched" patient_data ;;
      if u then
        unmatched_data <- py_getitem patient_data "unmatched" ;;
        unmatched_loop unmatched_data property_mapping []
      else Ok [].

(** A dict is true in a condition when it is not empty. *)
Definition dict_truthy (d : dict) : bool :=
  match d with [] => false | _ => true end.

(** The outer [for patient_id, patient_data in performance_data.items()]. *)
Fixpoint convert_loop (timestamp : string) (items : dict) (converted : dict)
    : res dict :=
  match items with
  | [] => Ok converted
  | (patient_id, patient_data) :: items' =>
      patient_performance <- patient_flags patient_data ;;
      convert_loop timestamp items'
        (if dict_truthy patient_performance
         then dict_set patient_id
                (JObj (dict_set "last_updated" (JStr timestamp)
                         patient_performance))
                converted
         else converted)
  end.

(** The body after the clock has been read. *)
Definition convert_with_timestamp (timestamp : string) (performance_data : json)
    : res dict :=
  items <- py_items performance_data ;;
  convert_loop timestamp items [].

(** [convert_performance_structure]: the timestamp is read from the ambient
    clock inside the call, [datetime.now().isoformat() + 'Z']; the function
    returns the converted record and the advanced clock state. *)
Definition convert_performance_structure (now : clock) (ticks : nat)
    (performance_data : json) : res (dict * nat) :=
  let timestamp := (now ticks ++ "Z")%string in
  converted <- convert_with_timestamp timestamp performance_data ;;
  Ok (converted, S ticks).

(* ================================================================== *)
(** ** The fusion loop of [fuse_schemas] *)
(* ================================================================== *)

(** The local variables the loop updates, and the clock state. *)
Record fuse_state : Type := mkState {
  properties : json;
  fused_count : nat;
  created_count : nat;
  variables_with_performance : list string;
  missing_variables : list string;
  ticks : nat
}.

(** One iteration of [for var_name in performance_schema.keys()].  The
    assignment [properties[var_name]['performance'] = ...] mutates the
    definition stored in [properties] in place: the mutated object is
    written back under the same key. *)
Definition fuse_step (now : clock) (performance_schema : json)
    (var_name : string) (st : fuse_state) : res fuse_state :=
  known <- py_in var_name (properties st) ;;
  if known then
    entry <- py_getitem performance_schema var_name ;;
    has_perf <- py_in "performance" entry ;;
    if has_perf then
      performance_data <- py_getitem entry "performance" ;;
      '(converted_performance, ticks') <-
        convert_performance_structure now (ticks st) performance_data ;;
      definition <- py_getitem (properties st) var_name ;;
      definition' <- py_setitem definition "performance"
                       (JObj converted_performance) ;;
      properties' <- py_setitem (properties st) var_name definition' ;;
      Ok (mkState properties'
            (fused_count st + 1)
            (created_count st)
            (variables_with_performance st ++ [var_name])
            (missing_variables st)
            ticks')
    else Ok st
  else
    let missing' := missing_variables st ++ [var_name] in
    let placeholder := create_placeholder_variable var_name in
    entry <- py_getitem performance_schema var_name ;;
    has_perf <- py_in "performance" entry ;;
    '(placeholder', ticks') <-
      (if has_perf then
         performance_data <- py_getitem entry "performance" ;;
         '(converted_performance, ticks') <-
           convert_performance_structure now (ticks st) performance_data ;;
         placeholder' <- py_setitem placeholder "performance"
                           (JObj converted_performance) ;;
         Ok (placeholder', ticks')
       else Ok (placeholder, ticks st)) ;;
    properties' <- py_setitem (properties st) var_name placeholder' ;;
    Ok (mkState properties'
          (fused_count st)
          (created_count st + 1)
          (variables_with_performance st ++ [var_name])
          missing'
          ticks').

Fixpoint fuse_loop (now : clock) (performance_schema : json)
    (keys : list string) (st : fuse_state) : res fuse_state :=
  match keys with
  | [] => Ok st
  | var_name :: keys' =>
      st' <- fuse_step now performance_schema var_name st ;;
      fuse_loop now performance_schema keys' st'
  end.

(** Lines 44-49: the variable map and the wrapper that will be dumped. *)
Definition get_properties (main_schema : json) : res (json * json) :=
  wrapped <- py_in "properties" main_schema ;;
  if wrapped then
    props <- py_getitem main_schema "properties" ;;
    Ok (props, main_schema)
  else Ok (main_schema, JObj [("properties", main_schema)]).

(** [properties] is the very object stored under [main_schema['properties']]:
    dumping [main_schema] after the loop shows the mutated variable map. *)
Definition alias_properties (main_schema props : json) : json :=
  match main_schema with
  | JObj d => JObj (dict_set "properties" props d)
  | _ => main_schema
  end.

Definition initial_state (props : json) : fuse_state :=
  mkState props 0 0 [] [] 0.

(** Lines 55-85: fresh statistics, then the loop over the dataset's keys. *)
Definition run_loop (now : clock) (performance_schema props : json)
    : res fuse_state :=
  keys <- py_keys performance_schema ;;
  fuse_loop now performance_schema keys (initial_state props).

(* ================================================================== *)
(** ** The reporting tail of [fuse_schemas] *)
(* ================================================================== *)

(** [sorted(...)] on strings. *)
Fixpoint insert_sorted (s : string) (l : list string) : list string :=
  match l with
  | [] => [s]
  | x :: l' => if String.leb s x then s :: l else x :: insert_sorted s l'
  end.

Definition sorted (l : list string) : list string :=
  fold_right insert_sorted [] l.

(** Lines 111-115: [for var_name in ...: if 'performance' in
    properties[var_name]: patients = set(...keys()); break]. *)
Fixpoint scan_patients (props : json) (names : list string)
    : res (list string) :=
  match names with
  | [] => Ok []
  | var_name :: names' =>
      definition <- py_getitem props var_name ;;
      has_perf <- py_in "performance" definition ;;
      if has_perf then
        performance <- py_getitem definition "performance" ;;
        py_keys performance
      else scan_patients props names'
  end.

(** The loop runs over the slice [variables_with_performance[:1]]. *)
Definition count_patients (st : fuse_state) : res (list string) :=
  scan_patients (properties st) (firstn 1 (variables_with_performance st)).

(** Lines 131-133 and 162-164: the subject count shown for one variable. *)
Definition patient_count (props : json) (var_name : string) : res nat :=
  definition <- py_getitem props var_name ;;
  has_perf <- py_in "performance" definition ;;
  if has_perf then
    performance <- py_getitem definition "performance" ;;
    py_len performance
  else Ok 0.

Fixpoint missing_lines (props : json) (names : list string)
    : res (list (string * nat)) :=
  match names with
  | [] => Ok []
  | var_name :: names' =>
      n <- patient_count props var_name ;;
      rest <- missing_lines props names' ;;
      Ok ((var_name, n) :: rest)
  end.

(** What [missing_variables.txt] holds once it has been written. *)
Record report : Type := mkReport {
  generated : string;
  total_missing : nat;
  listed : list (string * nat)
}.

(* ================================================================== *)
(** ** The world around one run, and what a run leaves behind *)
(* ================================================================== *)

(** What [open] and [json.load] give for an input path. *)
Inductive load_result : Type :=
| Loaded (j : json)
| LoadFails (e : exn).

(** The two input files, whether each of the two writes goes through
    ([None]) or raises, and the clock. *)
Record World : Type := mkWorld {
  main_file : load_result;
  performance_file : load_result;
  output_write : option exn;
  report_write : option exn;
  now : clock
}.

(** The lines printed on the console that carry a status or a figure. *)
Inductive message : Type :=
| MsgLoaded
| MsgErrorNotFound
| MsgErrorInvalidJSON
| MsgMainVariables (n : nat)
| MsgPerformanceVariables (n : nat)
| MsgFused (n : nat)
| MsgCreated (n : nat)
| MsgSaved
| MsgErrorWrite (e : exn)
| MsgTotals (total existed created with_performance : nat)
| MsgCoverage (numerator denominator : nat)
| MsgPatients (count : nat) (ids : list string)
| MsgMissing (lines : list (string * nat))
| MsgReportSaved
| MsgWarnReport (e : exn)
| MsgCompleted.

(** How the call ends: [return b], or an exception nobody catches. *)
Inductive py_result : Type :=
| Returned (b : bool)
| Uncaught (e : exn).

Record Outcome : Type := mkOutcome {
  result : py_result;
  output_file : option json;
  report_file : option report;
  console : list message
}.

(** The two [except] clauses around each load. *)
Definition load_failure (printed : list message) (e : exn) : Outcome :=
  match e with
  | FileNotFoundError =>
      mkOutcome (Returned false) None None (printed ++ [MsgErrorNotFound])
  | JSONDecodeError =>
      mkOutcome (Returned false) None None (printed ++ [MsgErrorInvalidJSON])
  | _ => mkOutcome (Uncaught e) None None printed
  end.

(** An exception outside every [try]. *)
Definition crash (printed : list message) (written : option json) (e : exn)
    : Outcome :=
  mkOutcome (Uncaught e) written None printed.

(** Lines 121-168, entered when [missing_variables] is not empty.  The first
    pass prints the list; the second one is inside the [try] that writes the
    report, where every exception ends in the warning. *)
Definition missing_section (w : World) (st : fuse_state)
    (printed : list message) (doc : json) : Outcome :=
  let names := sorted (missing_variables st) in
  match missing_lines (properties st) names with
  | Raise e => crash printed (Some doc) e
  | Ok lines =>
      let printed1 := printed ++ [MsgMissing lines] in
      match report_write w with
      | Some e =>
          mkOutcome (Returned true) (Some doc) None
            (printed1 ++ [MsgWarnReport e; MsgCompleted])
      | None =>
          match missing_lines (properties st) names with
          | Raise e =>
              mkOutcome (Returned true) (Some doc) None
                (printed1 ++ [MsgWarnReport e; MsgCompleted])
          | Ok lines' =>
              mkOutcome (Returned true) (Some doc)
                (Some (mkReport (now w (ticks st))
                         (List.length (missing_variables st)) lines'))
                (printed1 ++ [MsgReportSaved; MsgCompleted])
          end
      end
  end.

(** Lines 100-173, after the fused document has been written. *)
Definition summary (w : World) (st : fuse_state)
    (printed : list message) (doc : json) : Outcome :=
  match py_len (properties st) with
  | Raise e => crash printed (Some doc) e
  | Ok total =>
  let with_performance := List.length (variables_with_performance st) in
  let printed1 :=
    printed ++ [MsgTotals total (fused_count st) (created_count st)
                  with_performance] in
  if Nat.eqb total 0 then crash printed1 (Some doc) ZeroDivisionError
  else
  let printed2 := printed1 ++ [MsgCoverage with_performance total] in
  match count_patients st with
  | Raise e => crash printed2 (Some doc) e
  | Ok patients =>
  let printed3 :=
    printed2 ++ (match patients with
                 | [] => []
                 | _ => [MsgPatients (List.length patients) (sorted patients)]
                 end) in
  match missing_variables st with
  | [] => mkOutcome (Returned true) (Some doc) None (printed3 ++ [MsgCompleted])
  | _ :: _ => missing_section w st printed3 doc
  end
  end
  end.

(** [fuse_schemas], on the three fixed paths of [main]. *)
Definition fuse_schemas (w : World) : Outcome :=
  match main_file w with
  | LoadFails e => load_failure [] e
  | Loaded main_schema =>
  match performance_file w with
  | LoadFails e => load_failure [MsgLoaded] e
  | Loaded performance_schema =>
  let printed := [MsgLoaded; MsgLoaded] in
  match get_properties main_schema with
  | Raise e => crash printed None e
  | Ok (props, wrapper) =>
  match py_len props with
  | Raise e => crash printed None e
  | Ok n_main =>
  let printed1 := printed ++ [MsgMainVariables n_main] in
  match py_len performance_schema with
  | Raise e => crash printed1 None e
  | Ok n_perf =>
  let printed2 := printed1 ++ [MsgPerformanceVariables n_perf] in
  match run_loop (now w) performance_schema props with
  | Raise e => crash printed2 None e
  | Ok st =>
  let printed3 :=
    printed2 ++ [MsgFused (fused_count st); MsgCreated (created_count st)] in
  match output_write w with
  | Some e =>
      mkOutcome (Returned false) None None (printed3 ++ [MsgErrorWrite e])
  | None =>
      summary w st (printed3 ++ [MsgSaved])
        (alias_properties wrapper (properties st))
  end
  end
  end
  end
  end
  end
  end.

(** [main]: the exit status of the process.  [exit(1)] when the call returns
    false; an uncaught exception ends the interpreter with status 1 too. *)
Definition main (w : World) : nat :=
  match result (fuse_schemas w) with
  | Returned true => 0
  | Returned false => 1
  | Uncaught _ => 1
  end.

(* ================================================================== *)
(** ** Vocabulary of the statements *)
(* ================================================================== *)

(** Whether the raw entry of [k] in the dataset has a [performance]
    sub-object. *)
Definition has_performance (pd : dict) (k : string) : bool :=
  match dict_get k pd with
  | Some entry =>
      match py_in "performance" entry with Ok b => b | Raise _ => false end
  | None => false
  end.

(** Whether [k] is missing from a definition map. *)
Definition absent (d : dict) (k : string) : bool := negb (dict_mem k d).

(** An entry of a flag set: a name of the vocabulary, set to [True]. *)
Definition true_flag (kv : string * json) : Prop :=
  snd kv = JBool true /\ In (fst kv) flag_vocabulary.

(** [properties[v]['performance'][subject]['last_updated']]. *)
Definition last_updated_of (props : json) (v subject : string) : res json :=
  definition <- py_getitem props v ;;
  performance <- py_getitem definition "performance" ;;
  outcome <- py_getitem performance subject ;;
  py_getitem outcome "last_updated".

(** A clock that advances between reads. *)
Definition example_clock : clock :=
  fun n => match n with
           | 0 => "2025-01-01T12:00:00.000001"
           | 1 => "2025-01-01T12:00:00.000002"
           | _ => "2025-01-01T12:00:00.000003"
           end.

(** A record with a dropped subject among kept ones. *)
Definition blank_annotations : dict :=
  [("p1", JObj [("blank", JBool true);
                ("unmatched", JObj [("correction", JBool true)])]);
   ("p2", JObj [("matched", JBool false);
                ("unmatched", JObj [("missing_docs", JBool true);
                                    ("questioned", JInt 1)])]);
   ("p3", JObj [("matched", JBool true); ("blank", JBool true)])].

Definition blank_converted : dict :=
  Eval vm_compute in
    match convert_performance_structure example_clock 0
            (JObj blank_annotations) with
    | Ok (converted, _) => converted
    | Raise _ => []
    end.

(** The input shapes the design document names: an annotation is an object
    whose [unmatched] value, if any, is an object; a record maps subjects to
    annotations; a dataset entry is an object whose [performance] value, if
    any, is a record; a definition is an object. *)
Definition is_object (j : json) : bool :=
  match j with JObj _ => true | _ => false end.

Definition annotation_ok (a : json) : bool :=
  match a with
  | JObj fields =>
      match dict_get "unmatched" fields with
      | Some u => is_object u
      | None => true
      end
  | _ => false
  end.

Definition record_ok (p : json) : bool :=
  match p with
  | JObj items => forallb (fun kv => annotation_ok (snd kv)) items
  | _ => false
  end.

Definition entry_ok (e : json) : bool :=
  match e with
  | JObj fields =>
      match dict_get "performance" fields with
      | Some p => record_ok p
      | None => true
      end
  | _ => false
  end.

Definition dataset_ok (pd : dict) : bool :=
  forallb (fun kv => entry_ok (snd kv)) pd.

Definition definitions_ok (d : dict) : bool :=
  forallb (fun kv => is_object (snd kv)) d.

(** A definition the reporting tail can read: a dict whose [performance]
    field, when it has one, is a normalised record. *)
Definition reportable (d : dict) (v : string) : Prop :=
  exists definition,
    dict_get v d = Some (JObj definition) /\
    (dict_get "performance" definition = None \/
     exists record, dict_get "performance" definition = Some (JObj record)).

(** Whether the definition of [v] has a [performance] field attached. *)
Definition has_attached_performance (d : dict) (v : string) : bool :=
  match dict_get v d with
  | Some (JObj definition) => dict_mem "performance" definition
  | _ => false
  end.

(** The subject IDs of the record attached to [v]. *)
Definition performance_keys (d : dict) (v : string) : list string :=
  match dict_get v d with
  | Some (JObj definition) =>
      match dict_get "performance" definition with
      | Some (JObj record) => dict_keys record
      | _ => []
      end
  | _ => []
  end.

(** The subject-ID set in the words of the design document: scan the names
    in order and take the key set of the first one that has an attached
    [performance] field; empty when none has. *)
Definition spec_subject_ids (d : dict) (names : list string) : list string :=
  match find (has_attached_performance d) names with
  | Some v => performance_keys d v
  | None => []
  end.

(** The description in the words of the design document. *)
Definition spec_placeholder_description (var_name : string) : string :=
  ("Placeholder for " ++ var_name
   ++ " — please update with proper definition")%string.

(** The same world, with another fate for the report file. *)
Definition with_report_write (r : option exn) (w : World) : World :=
  mkWorld (main_file w) (performance_file w) (output_write w) r (now w).

(** The example of the design document. *)
Definition example_definitions : dict :=
  [("age", JObj [("description", JStr "Age in years")])].

Definition example_performance : dict :=
  [("age",
     JObj [("performance", JObj [("p1", JObj [("matched", JBool true)])])]);
   ("weight",
     JObj [("performance",
            JObj [("p1", JObj [("unmatched",
                                JObj [("missing_docs", JBool true)])])])])].

(** A dataset whose first key is unknown and carries no [performance]. *)
Definition bare_first_performance : dict :=
  [("height", JObj []);
   ("weight",
     JObj [("performance", JObj [("p1", JObj [("matched", JBool true)])])])].

Definition example_world : World :=
  mkWorld (Loaded (JObj example_definitions))
    (Loaded (JObj example_performance)) None (Some PermissionError)
    example_clock.

Definition empty_world : World :=
  mkWorld (Loaded (JObj [])) (Loaded (JObj [])) None None example_clock.

(** The state the loop reaches on the example. *)
Definition example_state : fuse_state :=
  Eval vm_compute in
    match run_loop example_clock (JObj example_performance)
            (JObj example_definitions) with
    | Ok st => st
    | Raise _ => initial_state JNull
    end.

Definition bare_first_state : fuse_state :=
  Eval vm_compute in
    match run_loop example_clock (JObj bare_first_performance) (JObj []) with
    | Ok st => st
    | Raise _ => initial_state JNull
    end.

(** The four ways one iteration of the loop can end without an exception,
    from a state whose variable map is the dict [d]. *)
Inductive step_spec (now : clock) (pd : dict) (v : string)
    (st : fuse_state) (d : dict) : fuse_state -> Prop :=
| step_ignored (entry : json) :
    dict_mem v d = true ->
    dict_get v pd = Some entry ->
    py_in "performance" entry = Ok false ->
    step_spec now pd v st d st
| step_fused (entry performance_data : json) (converted definition : dict) :
    dict_mem v d = true ->
    dict_get v pd = Some entry ->
    py_in "performance" entry = Ok true ->
    py_getitem entry "performance" = Ok performance_data ->
    convert_performance_structure now (ticks st) performance_data
      = Ok (converted, S (ticks st)) ->
    dict_get v d = Some (JObj definition) ->
    step_spec now pd v st d
      (mkState
         (JObj (dict_set v
                  (JObj (dict_set "performance" (JObj converted) definition))
                  d))
         (fused_count st + 1) (created_count st)
         (variables_with_performance st ++ [v])
         (missing_variables st) (S (ticks st)))
| step_created_bare (entry : json) :
    dict_mem v d = false ->
    dict_get v pd = Some entry ->
    py_in "performance" entry = Ok false ->
    step_spec now pd v st d
      (mkState (JObj (d ++ [(v, create_placeholder_variable v)]))
         (fused_count st) (created_count st + 1)
         (variables_with_performance st ++ [v])
         (missing_variables st ++ [v]) (ticks st))
| step_created_with (entry performance_data : json) (converted fields : dict) :
    dict_mem v d = false ->
    dict_get v pd = Some entry ->
    py_in "performance" entry = Ok true ->
    py_getitem entry "performance" = Ok performance_data ->
    convert_performance_structure now (ticks st) performance_data
      = Ok (converted, S (ticks st)) ->
    create_placeholder_variable v = JObj fields ->
    step_spec now pd v st d
      (mkState
         (JObj (d ++ [(v, JObj (fields ++ [("performance", JObj converted)]))]))
         (fused_count st) (created_count st + 1)
         (variables_with_performance st ++ [v])
         (missing_variables st ++ [v]) (S (ticks st))).

(** Whether a dict marks [k]: the key is present and its value is true in
    a condition, [k in d and d[k]]. *)
Definition marks (k : string) (d : dict) : bool :=
  match dict_get k d with
  | Some v => py_truthy v
  | None => false
  end.

(** The new names of the mapping whose old key is marked, in the order of
    the mapping, each set to [True]. *)
Definition renamed_flags (unmatched_data : dict) : dict :=
  map (fun p => (snd p, JBool true))
      (filter (fun p => marks (fst p) unmatched_data) property_mapping).

(** Whether the [if/elif] chain keeps a subject. *)
Definition included (kv : string * json) : bool :=
  match patient_flags (snd kv) with
  | Ok (_ :: _) => true
  | _ => false
  end.

(** [None], a boolean or a number. *)
Definition is_scalar (j : json) : bool :=
  match j with
  | JNull | JBool _ | JInt _ | JFloat _ _ => true
  | _ => false
  end.

(** What an iteration on key [v] needs to end normally from the variable
    map [d]: a raw entry that can be probed, a record that can be
    normalised, and, for a known variable that gets a record, a definition
    that is an object. *)
Definition step_ok (now : clock) (pd : dict) (v : string) (d : dict) : Prop :=
  exists entry has_perf,
    dict_get v pd = Some entry /\
    py_in "performance" entry = Ok has_perf /\
    (has_perf = true ->
       exists performance_data,
         py_getitem entry "performance" = Ok performance_data /\
         (forall t, exists converted,
            convert_performance_structure now t performance_data
            = Ok (converted, S t)) /\
         (dict_mem v d = true ->
            exists fields, dict_get v d = Some (JObj fields))).

(** The order [sorted] puts strings in. *)
Definition string_le (a b : string) : Prop := String.leb a b = true.

(** The example world, with a report file that can be written. *)
Definition writable_world : World :=
  with_report_write None example_world.

(** A world whose performance document is a JSON array. *)
Definition array_world : World :=
  mkWorld (Loaded (JObj example_definitions)) (Loaded (JArr [])) None None
    example_clock.

(** The example performance dataset fused a second time, into the result
    of the first run. *)
Definition example_rerun_state : fuse_state :=
  Eval vm_compute in
    match run_loop example_clock (JObj example_performance)
            (properties example_state) with
    | Ok st => st
    | Raise _ => initial_state JNull
    end.

(* ================================================================== *)
(** ** [update_all_files.py]: unique names in the target folder *)
(* ================================================================== *)

(** A folder, as [Path.exists] sees it on a case-sensitive file system: the
    names of its entries. *)
Definition name_exists (dir : list string) (name : string) : bool :=
  existsb (String.eqb name) dir.

(** [f"{i}"] for a counter: its decimal digits. *)
Definition decimal (i : nat) : string :=
  DecimalString.NilEmpty.string_of_uint (Nat.to_uint i).

Section UniqueName.

(** [Path.stem] and [Path.suffix] of the standard library, on the file
    name. *)
Variables stem suffix : string -> string.

(** [f"{stem} ({i}){suffix}"]. *)
Definition numbered_name (filename : string) (i : nat) : string :=
  (stem filename ++ " (" ++ decimal i ++ ")" ++ suffix filename)%string.

(** The [while True] loop from counter [i], with the number of rounds it
    may still make. *)
Fixpoint numbered_loop (dir : list string) (filename : string)
    (fuel i : nat) : option string :=
  match fuel with
  | 0 => None
  | S fuel' =>
      let candidate := numbered_name filename i in
      if name_exists dir candidate
      then numbered_loop dir filename fuel' (S i)
      else Some candidate
  end.

(** [unique_destination_name], as the name inside [dst_dir]. *)
Definition unique_destination_name (fuel : nat) (dir : list string)
    (filename : string) : option string :=
  if name_exists dir filename
  then numbered_loop dir filename fuel 1
  else Some filename.

End UniqueName.

(* ================================================================== *)
(** ** [update_all_files.py]: flattening a folder tree *)
(* ================================================================== *)

(** A folder as [os.walk] lists it: its files, then its sub-folders, each in
    listing order. *)
#[warnings="-register-all"]
Inductive tree : Type :=
| Folder (files : list string) (dirs : list (string * tree)).

Section TreeInduction.

Variable P : tree -> Prop.
Hypothesis step :
  forall files dirs,
    Forall (fun d => P (snd d)) dirs -> P (Folder files dirs).

Fixpoint tree_induction (t : tree) : P t :=
  match t with
  | Folder files dirs =>
      step files dirs
        ((fix all (ds : list (string * tree))
            : Forall (fun d => P (snd d)) ds :=
            match ds with
            | [] => Forall_nil _
            | d :: ds' => Forall_cons d (tree_induction (snd d)) (all ds')
            end) dirs)
  end.

End TreeInduction.

(** The entries of the target folder and the counter [files_copied]. *)
Record copy_state : Type := mkCopy {
  target_listing : list string;
  files_copied : nat
}.

Section CopyAll.

Variables stem suffix : string -> string.
Variable fuel : nat.

(** [target_dir.name], for a target folder directly under the base folder,
    as [main] passes it. *)
Variable target_name : string.

(** Whether [src_path.relative_to(target_dir)] returns instead of raising
    [ValueError], for the file [fname] of the folder reached from the base
    through the folders [rel]. *)
Definition inside_target (rel : list string) (fname : string) : bool :=
  match rel with
  | [] => String.eqb fname target_name
  | d :: _ => String.eqb d target_name
  end.

(** The body of [for fname in files]; [shutil.copy2] adds the destination
    to the target folder. *)
Definition copy_file (rel : list string) (fname : string) (s : copy_state)
    : option copy_state :=
  if inside_target rel fname then Some s
  else
    match unique_destination_name stem suffix fuel (target_listing s) fname
    with
    | Some dst => Some (mkCopy (target_listing s ++ [dst])
                          (S (files_copied s)))
    | None => None
    end.

Fixpoint copy_files (rel : list string) (files : list string)
    (s : copy_state) : option copy_state :=
  match files with
  | [] => Some s
  | fname :: files' =>
      match copy_file rel fname s with
      | Some s' => copy_files rel files' s'
      | None => None
      end
  end.

(** The descent of [os.walk] into the sub-folders that are left once
    [dirs.remove(target_name)] has taken out the first one with the
    target's name. *)
Fixpoint descend_with
    (walk : list string -> tree -> copy_state -> option copy_state)
    (rel : list string) (dirs : list (string * tree)) (pruned : bool)
    (s : copy_state) : option copy_state :=
  match dirs with
  | [] => Some s
  | (d, sub) :: dirs' =>
      if (negb pruned && String.eqb d target_name)%bool
      then descend_with walk rel dirs' true s
      else
        match walk (rel ++ [d]) sub s with
        | Some s' => descend_with walk rel dirs' pruned s'
        | None => None
        end
  end.

(** One step of [os.walk], top-down: the files of the folder, then its
    sub-folders. *)
Fixpoint copy_tree (rel : list string) (t : tree) (s : copy_state)
    {struct t} : option copy_state :=
  match t with
  | Folder files dirs =>
      match copy_files rel files s with
      | Some s1 => descend_with copy_tree rel dirs false s1
      | None => None
      end
  end.

(** [copy_all_files_to_target]: the entries of the target folder at the
    end, and the number of files copied. *)
Definition copy_all_files_to_target (target : list string) (base : tree)
    : option (list string * nat) :=
  match copy_tree [] base (mkCopy target 0) with
  | Some s => Some (target_listing s, files_copied s)
  | None => None
  end.



End CopyAll.

(** What a part of the walk adds to the target folder: new entries, one per
    file counted, pairwise distinct and distinct from the entries already
    there. *)
Definition adds (s s' : copy_state) : Prop :=
  exists new,
    target_listing s' = target_listing s ++ new /\
    files_copied s' = files_copied s + length new /\
    NoDup new /\
    forall x, In x new -> ~ In x (target_listing s).

(** A small tree: two files called [notes.txt] and the target folder
    itself, holding an old copy. *)
Definition example_tree : tree :=
  Folder ["notes.txt"; "run.py"]
    [("all_files", Folder ["notes.txt"] []);
     ("docs", Folder ["notes.txt"] [])].

(** A stem and a suffix for the examples. *)
Definition example_stem (name : string) : string :=
  if String.eqb name "notes.txt" then "notes" else name.

Definition example_suffix (name : string) : string :=
  if String.eqb name "notes.txt" then ".txt" else "".

(* ================================================================== *)
(** ** Facts about dicts *)
(* ================================================================== *)

Lemma dict_get_set_same (k : string) (v : json) (d : dict) :
  dict_get k (dict_set k v d) = Some v.
Proof.
  induction d as [|[k' v'] d IH]; simpl.
  - now rewrite String.eqb_refl.
  - destruct (String.eqb k k') eqn:E; simpl.
    + now rewrite String.eqb_refl.
    + now rewrite E.
Qed.

Lemma dict_get_set_other (k k' : string) (v : json) (d : dict) :
  k <> k' -> dict_get k (dict_set k' v d) = dict_get k d.
Proof.
  intros Hne. induction d as [|[k0 v0] d IH]; simpl.
  - apply String.eqb_neq in Hne. now rewrite Hne.
  - destruct (String.eqb k' k0) eqn:E; simpl.
    + apply String.eqb_eq in E; subst k0.
      apply String.eqb_neq in Hne. now rewrite Hne.
    + now rewrite IH.
Qed.

Lemma dict_mem_In (k : string) (d : dict) :
  dict_mem k d = true <-> In k (dict_keys d).
Proof.
  unfold dict_mem. induction d as [|[k' v'] d IH]; simpl.
  - split; [discriminate | tauto].
  - destruct (String.eqb k k') eqn:E.
    + apply String.eqb_eq in E. subst. tauto.
    + apply String.eqb_neq in E. rewrite IH. split; [tauto|].
      intros [H|H]; [congruence | exact H].
Qed.

Lemma dict_mem_false_In (k : string) (d : dict) :
  dict_mem k d = false <-> ~ In k (dict_keys d).
Proof.
  rewrite <- dict_mem_In. destruct (dict_mem k d); split; congruence.
Qed.

Lemma dict_get_In (k : string) (v : json) (d : dict) :
  dict_get k d = Some v -> In (k, v) d.
Proof.
  induction d as [|[k' v'] d IH]; simpl; [discriminate|].
  destruct (String.eqb k k') eqn:E.
  - apply String.eqb_eq in E. intros [= ->]. subst. now left.
  - intros H. right. now apply IH.
Qed.

Lemma In_dict_get (k : string) (v : json) (d : dict) :
  NoDup (dict_keys d) -> In (k, v) d -> dict_get k d = Some v.
Proof.
  induction d as [|[k' v'] d IH]; simpl; [tauto|].
  intros Hnd [H|H].
  - injection H as -> ->. now rewrite String.eqb_refl.
  - inversion Hnd as [|? ? Hnotin Hnd']; subst.
    destruct (String.eqb k k') eqn:E.
    + apply String.eqb_eq in E. subst k'. exfalso. apply Hnotin.
      change (In (fst (k, v)) (map fst d)). now apply in_map.
    + now apply IH.
Qed.

Lemma dict_set_fresh (k : string) (v : json) (d : dict) :
  dict_mem k d = false -> dict_set k v d = d ++ [(k, v)].
Proof.
  unfold dict_mem. induction d as [|[k' v'] d IH]; simpl; [reflexivity|].
  destruct (String.eqb k k'); [discriminate|].
  intros H. now rewrite IH.
Qed.

Lemma dict_keys_set_known (k : string) (v : json) (d : dict) :
  dict_mem k d = true -> dict_keys (dict_set k v d) = dict_keys d.
Proof.
  unfold dict_mem, dict_keys. induction d as [|[k' v'] d IH]; simpl.
  - discriminate.
  - destruct (String.eqb k k') eqn:E; simpl.
    + apply String.eqb_eq in E. now subst.
    + intros H. now rewrite IH.
Qed.

Lemma dict_mem_set (k k' : string) (v : json) (d : dict) :
  dict_mem k (dict_set k' v d) = (String.eqb k k' || dict_mem k d)%bool.
Proof.
  unfold dict_mem. destruct (String.eqb k k') eqn:E; simpl.
  - apply String.eqb_eq in E. subst. now rewrite dict_get_set_same.
  - apply String.eqb_neq in E. now rewrite dict_get_set_other.
Qed.

Lemma In_dict_set (k k' : string) (v v' : json) (d : dict) :
  In (k, v) (dict_set k' v' d) -> (k = k' /\ v = v') \/ In (k, v) d.
Proof.
  induction d as [|[k0 v0] d IH]; simpl.
  - intros [[= <- <-]|[]]. now left.
  - destruct (String.eqb k' k0); simpl.
    + intros [[= <- <-]|H]; [now left | right; now right].
    + intros [H|H]; [right; now left|].
      destruct (IH H) as [?|?]; [now left | right; now right].
Qed.

(* ================================================================== *)
(** ** Facts about the result monad *)
(* ================================================================== *)

Lemma bind_Ok {A B : Type} (c : res A) (f : A -> res B) (b : B) :
  bind c f = Ok b -> exists a, c = Ok a /\ f a = Ok b.
Proof.
  destruct c as [a|e]; simpl; [|discriminate].
  intros H. now exists a.
Qed.

Lemma bind_ret {A B : Type} (a : A) (f : A -> res B) : bind (Ok a) f = f a.
Proof. reflexivity. Qed.

(** Runs the [bind]s whose first computation has returned. *)
Ltac bind_step := rewrite ?bind_ret; cbv beta iota.

(** Splits the first [bind] of a hypothesis [H : ... = Ok _]. *)
Ltac bind_inv H :=
  let a := fresh "a" in
  let Ha := fresh "Ha" in
  apply bind_Ok in H; destruct H as (a & Ha & H).

(** Pairwise distinct string literals. *)
Ltac nodup_strings :=
  repeat (apply NoDup_cons;
          [ let H := fresh "H" in
            simpl; intros H;
            repeat (destruct H as [H|H]; [discriminate H|]); exact H
          | ]);
  apply NoDup_nil.

Tactic Notation "bind_inv_as" hyp(H) ident(a) ident(Ha) :=
  apply bind_Ok in H; destruct H as (a & Ha & H).

Lemma py_getitem_Ok (j : json) (k : string) (v : json) :
  py_getitem j k = Ok v -> exists d, j = JObj d /\ dict_get k d = Some v.
Proof.
  destruct j; simpl; try discriminate.
  destruct (dict_get k d) eqn:E; [|discriminate].
  intros [= ->]. now exists d.
Qed.

Lemma py_getitem_dict (d : dict) (k : string) (v : json) :
  dict_get k d = Some v -> py_getitem (JObj d) k = Ok v.
Proof. intros H. simpl. now rewrite H. Qed.

Lemma py_setitem_Ok (j : json) (k : string) (v j' : json) :
  py_setitem j k v = Ok j' -> exists d, j = JObj d /\ j' = JObj (dict_set k v d).
Proof.
  destruct j; simpl; try discriminate.
  intros [= <-]. now exists d.
Qed.

(* ================================================================== *)
(** ** The normaliser *)
(* ================================================================== *)

Lemma unmatched_loop_true_flags (unmatched_data : json) :
  forall pairs acc flags,
    Forall (fun p => In (snd p) flag_vocabulary) pairs ->
    Forall true_flag acc ->
    unmatched_loop unmatched_data pairs acc = Ok flags ->
    Forall true_flag flags.
Proof.
  induction pairs as [|[old_key new_key] pairs IH]; simpl; intros acc flags Hp Hacc H.
  - now injection H as <-.
  - inversion Hp as [|? ? Hnew Hp']; subst. simpl in Hnew.
    bind_inv H. apply (IH _ _ Hp') in H; [exact H|].
    destruct a; [|exact Hacc].
    apply Forall_forall. intros [k v] Hin.
    apply In_dict_set in Hin. destruct Hin as [[-> ->]|Hin].
    + now split.
    + exact (proj1 (Forall_forall _ _) Hacc _ Hin).
Qed.

Lemma property_mapping_in_vocabulary :
  Forall (fun p => In (snd p) flag_vocabulary) property_mapping.
Proof.
  unfold flag_vocabulary, property_mapping. simpl.
  repeat (apply Forall_cons;
          [simpl; repeat first [left; reflexivity | right] |]).
  apply Forall_nil.
Qed.

Lemma patient_flags_true_flags (patient_data : json) (flags : dict) :
  patient_flags patient_data = Ok flags -> Forall true_flag flags.
Proof.
  unfold patient_flags. intros H.
  bind_inv H. destruct a.
  { injection H as <-. apply Forall_cons; [|apply Forall_nil].
    split; [reflexivity | now left]. }
  bind_inv H. destruct a.
  { injection H as <-. constructor. }
  bind_inv H. destruct a.
  - bind_inv H.
    eapply unmatched_loop_true_flags; [apply property_mapping_in_vocabulary | constructor | exact H].
  - injection H as <-. constructor.
Qed.

Lemma last_updated_fresh (flags : dict) :
  Forall true_flag flags -> dict_mem "last_updated" flags = false.
Proof.
  intros H. apply dict_mem_false_In. intros Hin.
  apply in_map_iff in Hin. destruct Hin as ([k v] & Hk & Hin). simpl in Hk. subst k.
  apply (proj1 (Forall_forall _ _) H) in Hin. destruct Hin as [_ Hv].
  simpl in Hv. repeat (destruct Hv as [Hv|Hv]; [discriminate|]). exact Hv.
Qed.

Lemma dict_truthy_nonempty (d : dict) : dict_truthy d = true <-> d <> [].
Proof. destruct d; simpl; split; congruence. Qed.

(** What the outer loop adds to the record it was given. *)
Lemma convert_loop_members (ts : string) :
  forall items acc converted,
    convert_loop ts items acc = Ok converted ->
    forall pid,
      dict_mem pid converted = true <->
      dict_mem pid acc = true \/
      exists pdata flags,
        In (pid, pdata) items /\ patient_flags pdata = Ok flags /\ flags <> [].
Proof.
  induction items as [|[p pdata] items IH]; simpl; intros acc converted H pid.
  - injection H as <-. split; [tauto|]. intros [H|(? & ? & [] & _)]. exact H.
  - bind_inv H. rename a into flags.
    rewrite (IH _ _ H pid). destruct (dict_truthy flags) eqn:Et.
    + rewrite dict_mem_set. split.
      * intros [Hm|(pd' & fl' & Hin & Hf & Hne)].
        -- apply orb_true_iff in Hm. destruct Hm as [Hm|Hm]; [|now left].
           apply String.eqb_eq in Hm. subst p. right. exists pdata, flags.
           repeat split; [now left | exact Ha | now apply dict_truthy_nonempty].
        -- right. exists pd', fl'. repeat split; [now right | exact Hf | exact Hne].
      * intros [Hm|(pd' & fl' & [Hin|Hin] & Hf & Hne)].
        -- left. rewrite Hm. apply orb_true_r.
        -- injection Hin as -> ->. left. now rewrite String.eqb_refl.
        -- right. now exists pd', fl'.
    + split.
      * intros [Hm|(pd' & fl' & Hin & Hf & Hne)]; [now left|].
        right. exists pd', fl'. repeat split; [now right | exact Hf | exact Hne].
      * intros [Hm|(pd' & fl' & [Hin|Hin] & Hf & Hne)]; [now left | | ].
        -- injection Hin as -> ->. rewrite Ha in Hf. injection Hf as <-.
           apply dict_truthy_nonempty in Hne. congruence.
        -- right. now exists pd', fl'.
Qed.

(** Every record the outer loop stores is a non-empty flag set followed by
    the timestamp. *)
Lemma convert_loop_records (ts : string) :
  forall items acc converted,
    convert_loop ts items acc = Ok converted ->
    forall pid rec,
      dict_get pid converted = Some rec ->
      dict_get pid acc = Some rec \/
      exists pdata flags,
        In (pid, pdata) items /\ patient_flags pdata = Ok flags /\
        flags <> [] /\ rec = JObj (flags ++ [("last_updated", JStr ts)]).
Proof.
  induction items as [|[p pdata] items IH]; simpl; intros acc converted H pid rec Hget.
  - injection H as <-. now left.
  - bind_inv H. rename a into flags.
    destruct (IH _ _ H pid rec Hget) as [Hacc|(pd' & fl' & Hin & Hf & Hne & Hrec)].
    + destruct (dict_truthy flags) eqn:Et; [|now left].
      destruct (String.eqb_spec pid p) as [->|Hne].
      * rewrite dict_get_set_same in Hacc. injection Hacc as <-.
        right. exists pdata, flags. repeat split.
        -- now left.
        -- exact Ha.
        -- now apply dict_truthy_nonempty.
        -- rewrite dict_set_fresh; [reflexivity|].
           apply last_updated_fresh. now apply patient_flags_true_flags with pdata.
      * rewrite dict_get_set_other in Hacc by exact Hne. now left.
    + right. exists pd', fl'. repeat split; [now right | exact Hf | exact Hne | exact Hrec].
Qed.

Lemma convert_performance_structure_Ok (now : clock) (ticks : nat)
    (performance_data : json) (converted : dict) (ticks' : nat) :
  convert_performance_structure now ticks performance_data = Ok (converted, ticks') ->
  exists items,
    performance_data = JObj items /\ ticks' = S ticks /\
    convert_loop (now ticks ++ "Z")%string items [] = Ok converted.
Proof.
  unfold convert_performance_structure, convert_with_timestamp. intros H.
  bind_inv H. injection H as <- <-. bind_inv Ha.
  destruct performance_data; try discriminate. injection Ha0 as <-.
  now exists d.
Qed.

(* ================================================================== *)
(** ** One iteration of the fusion loop *)
(* ================================================================== *)

Lemma convert_ticks (now : clock) (t : nat) (performance_data : json)
    (converted : dict) (t' : nat) :
  convert_performance_structure now t performance_data = Ok (converted, t') ->
  t' = S t.
Proof.
  intros H. apply convert_performance_structure_Ok in H.
  now destruct H as (? & _ & ? & _).
Qed.

Lemma fuse_step_spec (now : clock) (pd : dict) (v : string)
    (st st' : fuse_state) (d : dict) :
  properties st = JObj d ->
  fuse_step now (JObj pd) v st = Ok st' ->
  step_spec now pd v st d st'.
Proof.
  intros Hd H. unfold fuse_step in H. rewrite Hd in H.
  bind_inv_as H known Hknown. simpl in Hknown. injection Hknown as <-.
  destruct (dict_mem v d) eqn:Hmem.
  - bind_inv_as H entry Hentry.
    apply py_getitem_Ok in Hentry. destruct Hentry as (pd' & [= <-] & Hentry).
    bind_inv_as H has_perf Hhas. destruct has_perf.
    + bind_inv_as H performance_data Hpdat.
      bind_inv_as H cv Hconv. destruct cv as [converted t'].
      pose proof (convert_ticks _ _ _ _ _ Hconv) as ->.
      bind_inv_as H definition Hdef.
      apply py_getitem_Ok in Hdef. destruct Hdef as (d' & [= <-] & Hdef).
      bind_inv_as H definition' Hset.
      apply py_setitem_Ok in Hset. destruct Hset as (fields & -> & ->).
      bind_inv_as H props' Hprops.
      apply py_setitem_Ok in Hprops. destruct Hprops as (d'' & [= <-] & ->).
      injection H as <-.
      eapply step_fused; eassumption.
    + injection H as <-. eapply step_ignored; eassumption.
  - bind_inv_as H entry Hentry.
    apply py_getitem_Ok in Hentry. destruct Hentry as (pd' & [= <-] & Hentry).
    bind_inv_as H has_perf Hhas. destruct has_perf.
    + bind_inv_as H pt Hpt. destruct pt as [placeholder' t'].
      bind_inv_as Hpt performance_data Hpdat.
      bind_inv_as Hpt cv Hconv. destruct cv as [converted t''].
      pose proof (convert_ticks _ _ _ _ _ Hconv) as ->.
      bind_inv_as Hpt ph Hset. injection Hpt as <- <-.
      apply py_setitem_Ok in Hset. destruct Hset as (fields & Hph & ->).
      assert (Hfresh : dict_mem "performance" fields = false).
      { unfold create_placeholder_variable in Hph. now injection Hph as <-. }
      rewrite (dict_set_fresh _ _ _ Hfresh) in H.
      bind_inv_as H props' Hprops.
      apply py_setitem_Ok in Hprops. destruct Hprops as (d' & [= <-] & ->).
      injection H as <-.
      rewrite dict_set_fresh by exact Hmem.
      eapply step_created_with; eassumption.
    + bind_inv_as H pt Hpt. injection Hpt as <-.
      bind_inv_as H props' Hprops.
      apply py_setitem_Ok in Hprops. destruct Hprops as (d' & [= <-] & ->).
      injection H as <-.
      rewrite dict_set_fresh by exact Hmem.
      eapply step_created_bare; eassumption.
Qed.

Lemma dict_get_app_fresh (k v : string) (x : json) (d : dict) :
  dict_mem v d = false ->
  dict_get k (d ++ [(v, x)]) = if String.eqb k v then Some x else dict_get k d.
Proof.
  intros Hmem. rewrite <- (dict_set_fresh v x d Hmem).
  destruct (String.eqb_spec k v) as [->|Hne].
  - apply dict_get_set_same.
  - now apply dict_get_set_other.
Qed.

(** An iteration leaves the variable map a dict, and touches no key but
    its own. *)
Lemma step_spec_frame (now : clock) (pd : dict) (v : string)
    (st st' : fuse_state) (d : dict) :
  properties st = JObj d ->
  step_spec now pd v st d st' ->
  exists d', properties st' = JObj d' /\
    forall k, k <> v -> dict_get k d' = dict_get k d.
Proof.
  intros Hd Hstep. destruct Hstep; simpl.
  - exists d. now split.
  - eexists. split; [reflexivity|]. intros k Hk. now apply dict_get_set_other.
  - eexists. split; [reflexivity|]. intros k Hk.
    rewrite dict_get_app_fresh by assumption.
    apply String.eqb_neq in Hk. now rewrite Hk.
  - eexists. split; [reflexivity|]. intros k Hk.
    rewrite dict_get_app_fresh by assumption.
    apply String.eqb_neq in Hk. now rewrite Hk.
Qed.

(* ================================================================== *)
(** ** The whole loop *)
(* ================================================================== *)

Lemma fuse_loop_frame (now : clock) (pd : dict) :
  forall keys st d st',
    properties st = JObj d ->
    fuse_loop now (JObj pd) keys st = Ok st' ->
    exists d', properties st' = JObj d' /\
      forall k, ~ In k keys -> dict_get k d' = dict_get k d.
Proof.
  induction keys as [|v keys IH]; simpl; intros st d st' Hd H.
  - injection H as <-. exists d. now split.
  - bind_inv_as H st1 Hstep.
    apply (fuse_step_spec _ _ _ _ _ _ Hd) in Hstep.
    destruct (step_spec_frame _ _ _ _ _ _ Hd Hstep) as (d1 & Hd1 & Hframe1).
    destruct (IH _ _ _ Hd1 H) as (d' & Hd' & Hframe).
    exists d'. split; [exact Hd'|]. intros k Hk.
    rewrite Hframe by tauto. apply Hframe1. intros ->. tauto.
Qed.

(** With pairwise distinct keys, the final value of a key is the one its own
    iteration left, and that iteration saw the key's initial value. *)
Lemma fuse_loop_at_key (now : clock) (pd : dict) :
  forall keys st d st',
    NoDup keys ->
    properties st = JObj d ->
    fuse_loop now (JObj pd) keys st = Ok st' ->
    exists d', properties st' = JObj d' /\
      forall v, In v keys ->
        exists st1 d1 st2 d2,
          properties st1 = JObj d1 /\ properties st2 = JObj d2 /\
          step_spec now pd v st1 d1 st2 /\
          dict_get v d1 = dict_get v d /\ dict_get v d' = dict_get v d2.
Proof.
  induction keys as [|v0 keys IH]; simpl; intros st d st' Hnd Hd H.
  - injection H as <-. exists d. split; [exact Hd | tauto].
  - inversion Hnd as [|? ? Hnotin Hnd']; subst.
    bind_inv_as H stA Hstep.
    apply (fuse_step_spec _ _ _ _ _ _ Hd) in Hstep.
    destruct (step_spec_frame _ _ _ _ _ _ Hd Hstep) as (dA & HdA & HframeA).
    destruct (IH _ _ _ Hnd' HdA H) as (d' & Hd' & Hkeys).
    destruct (fuse_loop_frame _ _ _ _ _ _ HdA H) as (d'' & Hd'' & Hframe).
    rewrite Hd' in Hd''. injection Hd'' as <-.
    exists d'. split; [exact Hd'|]. intros v [->|Hin].
    + exists st, d, stA, dA. repeat split; try assumption. now apply Hframe.
    + destruct (Hkeys v Hin) as (st1 & d1 & st2 & d2 & H1 & H2 & Hs & Hg1 & Hg2).
      exists st1, d1, st2, d2. repeat split; try assumption.
      rewrite Hg1. apply HframeA. intros ->. tauto.
Qed.

(** The bookkeeping of one iteration, by the two tests it makes. *)
Lemma step_spec_counts (now : clock) (pd : dict) (v : string)
    (st st' : fuse_state) (d d' : dict) :
  properties st = JObj d ->
  step_spec now pd v st d st' ->
  properties st' = JObj d' ->
  dict_keys d' = dict_keys d ++ filter (absent d) [v] /\
  missing_variables st' = missing_variables st ++ filter (absent d) [v] /\
  created_count st' = created_count st + length (filter (absent d) [v]) /\
  variables_with_performance st' =
    variables_with_performance st
    ++ filter (fun k => absent d k || has_performance pd k)%bool [v] /\
  fused_count st' =
    fused_count st
    + length (filter (fun k => dict_mem k d && has_performance pd k)%bool [v]) /\
  ticks st' = ticks st + length (filter (has_performance pd) [v]).
Proof.
  intros Hd Hstep Hd'.
  destruct Hstep as [entry Hmem Hentry Hin
                    |entry pdat conv def Hmem Hentry Hin Hp Hc Hdef
                    |entry Hmem Hentry Hin
                    |entry pdat conv fields Hmem Hentry Hin Hp Hc Hph];
    simpl in Hd'; unfold absent, has_performance; simpl;
    rewrite Hmem, Hentry, Hin; simpl.
  - rewrite Hd in Hd'. injection Hd' as <-.
    rewrite ?app_nil_r. repeat split; lia.
  - injection Hd' as <-. rewrite dict_keys_set_known by exact Hmem.
    rewrite ?app_nil_r. repeat split; lia.
  - injection Hd' as <-. unfold dict_keys. rewrite map_app. simpl.
    rewrite ?app_nil_r. repeat split; lia.
  - injection Hd' as <-. unfold dict_keys. rewrite map_app. simpl.
    repeat split; lia.
Qed.

Lemma fuse_loop_counts (now : clock) (pd : dict) :
  forall keys st d st',
    NoDup keys ->
    properties st = JObj d ->
    fuse_loop now (JObj pd) keys st = Ok st' ->
    exists d', properties st' = JObj d' /\
      dict_keys d' = dict_keys d ++ filter (absent d) keys /\
      missing_variables st' = missing_variables st ++ filter (absent d) keys /\
      created_count st' = created_count st + length (filter (absent d) keys) /\
      variables_with_performance st' =
        variables_with_performance st
        ++ filter (fun k => absent d k || has_performance pd k)%bool keys /\
      fused_count st' =
        fused_count st
        + length (filter (fun k => dict_mem k d && has_performance pd k)%bool
                    keys) /\
      ticks st' = ticks st + length (filter (has_performance pd) keys).
Proof.
  induction keys as [|v keys IH]; intros st d st' Hnd Hd H.
  - simpl in H. injection H as <-. exists d. simpl.
    rewrite !app_nil_r. repeat split; try assumption; lia.
  - inversion Hnd as [|? ? Hnotin Hnd']; subst.
    simpl in H. bind_inv_as H st1 Hstep.
    apply (fuse_step_spec _ _ _ _ _ _ Hd) in Hstep.
    destruct (step_spec_frame _ _ _ _ _ _ Hd Hstep) as (d1 & Hd1 & Hframe).
    destruct (step_spec_counts _ _ _ _ _ _ _ Hd Hstep Hd1)
      as (Hk1 & Hm1 & Hc1 & Hw1 & Hf1 & Ht1).
    destruct (IH _ _ _ Hnd' Hd1 H) as (d' & Hd' & Hk & Hm & Hc & Hw & Hf & Ht).
    assert (Hmem : forall k, In k keys -> dict_mem k d1 = dict_mem k d).
    { intros k Hk'. unfold dict_mem. rewrite Hframe; [reflexivity|].
      intros ->. tauto. }
    assert (Ha : filter (absent d1) keys = filter (absent d) keys).
    { apply filter_ext_in. intros k Hk'. unfold absent. now rewrite Hmem. }
    assert (Hb : filter (fun k => absent d1 k || has_performance pd k)%bool keys
                 = filter (fun k => absent d k || has_performance pd k)%bool keys).
    { apply filter_ext_in. intros k Hk'. unfold absent. now rewrite Hmem. }
    assert (Hg : filter (fun k => dict_mem k d1 && has_performance pd k)%bool keys
                 = filter (fun k => dict_mem k d && has_performance pd k)%bool keys).
    { apply filter_ext_in. intros k Hk'. now rewrite Hmem. }
    rewrite Ha in Hk, Hm, Hc. rewrite Hb in Hw. rewrite Hg in Hf.
    exists d'. split; [exact Hd'|].
    change (v :: keys) with ([v] ++ keys). rewrite !filter_app, !length_app.
    rewrite Hk, Hm, Hc, Hw, Hf, Ht, Hk1, Hm1, Hc1, Hw1, Hf1, Ht1.
    rewrite <- !app_assoc. repeat split; lia.
Qed.

(** What the loop leaves under each key of the dataset. *)
Lemma fuse_loop_final_value (now : clock) (pd : dict) :
  forall keys st d st',
    NoDup keys ->
    properties st = JObj d ->
    fuse_loop now (JObj pd) keys st = Ok st' ->
    exists d', properties st' = JObj d' /\
      forall v, In v keys ->
        exists entry, dict_get v pd = Some entry /\
          ((dict_mem v d = true /\ py_in "performance" entry = Ok false /\
            dict_get v d' = dict_get v d)
           \/
           (dict_mem v d = true /\ py_in "performance" entry = Ok true /\
            exists performance_data converted definition t,
              py_getitem entry "performance" = Ok performance_data /\
              convert_performance_structure now t performance_data
                = Ok (converted, S t) /\
              dict_get v d = Some (JObj definition) /\
              dict_get v d' =
                Some (JObj (dict_set "performance" (JObj converted) definition)))
           \/
           (dict_mem v d = false /\ py_in "performance" entry = Ok false /\
            dict_get v d' = Some (create_placeholder_variable v))
           \/
           (dict_mem v d = false /\ py_in "performance" entry = Ok true /\
            exists performance_data converted fields t,
              py_getitem entry "performance" = Ok performance_data /\
              convert_performance_structure now t performance_data
                = Ok (converted, S t) /\
              create_placeholder_variable v = JObj fields /\
              dict_get v d' =
                Some (JObj (fields ++ [("performance", JObj converted)])))).
Proof.
  intros keys st d st' Hnd Hd H.
  destruct (fuse_loop_at_key _ _ _ _ _ _ Hnd Hd H) as (d' & Hd' & Hkeys).
  exists d'. split; [exact Hd'|]. intros v Hin.
  destruct (Hkeys v Hin) as (st1 & d1 & st2 & d2 & H1 & H2 & Hstep & Hg1 & Hg2).
  assert (Hm : dict_mem v d1 = dict_mem v d) by (unfold dict_mem; now rewrite Hg1).
  destruct Hstep as [entry Hmem Hentry Hp
                    |entry pdat conv def Hmem Hentry Hp Hpd Hc Hdef
                    |entry Hmem Hentry Hp
                    |entry pdat conv fields Hmem Hentry Hp Hpd Hc Hph];
    exists entry; (split; [exact Hentry|]); simpl in H2.
  - left. rewrite H1 in H2. injection H2 as <-.
    repeat split; congruence.
  - right; left. injection H2 as <-. rewrite dict_get_set_same in Hg2.
    repeat split; try congruence.
    exists pdat, conv, def, (ticks st1). repeat split; congruence.
  - right; right; left. injection H2 as <-.
    rewrite dict_get_app_fresh, String.eqb_refl in Hg2 by exact Hmem.
    repeat split; congruence.
  - right; right; right. injection H2 as <-.
    rewrite dict_get_app_fresh, String.eqb_refl in Hg2 by exact Hmem.
    repeat split; try congruence.
    exists pdat, conv, fields, (ticks st1). repeat split; congruence.
Qed.

Lemma run_loop_Ok (now : clock) (pd : dict) (props : json) (st : fuse_state) :
  run_loop now (JObj pd) props = Ok st ->
  fuse_loop now (JObj pd) (dict_keys pd) (initial_state props) = Ok st.
Proof. intros H. exact H. Qed.

Lemma filter_absent_or_length (d pd : dict) (l : list string) :
  length (filter (fun k => absent d k || has_performance pd k)%bool l)
  = length (filter (absent d) l)
    + length (filter (fun k => dict_mem k d && has_performance pd k)%bool l).
Proof.
  induction l as [|k l IH]; simpl; [reflexivity|].
  unfold absent in *.
  destruct (dict_mem k d), (has_performance pd k); simpl; lia.
Qed.

Lemma known_keys_length (d pd : dict) (l : list string) :
  NoDup l ->
  length (filter (fun k => dict_mem k d && has_performance pd k)%bool l)
  <= length d.
Proof.
  intros Hnd. rewrite <- (length_map fst d).
  apply NoDup_incl_length.
  - now apply NoDup_filter.
  - intros k Hk. apply filter_In in Hk. destruct Hk as [_ Hk].
    apply andb_true_iff in Hk. destruct Hk as [Hk _].
    now apply dict_mem_In.
Qed.

(** Every name the loop records has a definition the tail can read. *)
Lemma recorded_reportable (now : clock) (pd d0 : dict) (st : fuse_state) :
  NoDup (dict_keys pd) ->
  run_loop now (JObj pd) (JObj d0) = Ok st ->
  exists d', properties st = JObj d' /\
    forall v,
      In v (variables_with_performance st) \/ In v (missing_variables st) ->
      reportable d' v.
Proof.
  intros Hnd H. apply run_loop_Ok in H.
  destruct (fuse_loop_final_value now pd _ (initial_state (JObj d0)) d0 st
              Hnd eq_refl H) as (d' & Hd' & Hval).
  destruct (fuse_loop_counts now pd _ (initial_state (JObj d0)) d0 st
              Hnd eq_refl H) as (d'' & Hd'' & _ & Hm & _ & Hw & _).
  simpl in Hm, Hw. exists d'. split; [exact Hd'|]. intros v Hv.
  assert (Hin : In v (dict_keys pd) /\
                (absent d0 v || has_performance pd v)%bool = true).
  { destruct Hv as [Hv|Hv].
    - rewrite Hw in Hv. now apply filter_In in Hv.
    - rewrite Hm in Hv. apply filter_In in Hv. destruct Hv as [? Hv].
      split; [assumption|]. now rewrite Hv. }
  destruct Hin as [Hin Hrec].
  destruct (Hval v Hin) as (entry & Hentry & Hcase).
  unfold absent, has_performance in Hrec. rewrite Hentry in Hrec.
  destruct Hcase as [(Hmem & Hp & _)
                    |[(_ & _ & pdat & conv & def & t & _ & _ & _ & Hget)
                    |[(_ & _ & Hget)
                    |(_ & _ & pdat & conv & fields & t & _ & _ & Hph & Hget)]]].
  - rewrite Hmem, Hp in Hrec. discriminate.
  - eexists. split; [exact Hget|]. right. exists conv. apply dict_get_set_same.
  - eexists. split; [exact Hget|]. now left.
  - eexists. split; [exact Hget|]. right. exists conv.
    unfold create_placeholder_variable in Hph. injection Hph as <-. reflexivity.
Qed.

Lemma patient_count_reportable (d : dict) (v : string) :
  reportable d v -> exists n, patient_count (JObj d) v = Ok n.
Proof.
  intros (definition & Hget & Hperf). unfold patient_count. simpl.
  rewrite Hget. simpl. unfold dict_mem.
  destruct Hperf as [Hnone|(record & Hsome)].
  - rewrite Hnone. now exists 0.
  - rewrite Hsome. simpl. now eexists.
Qed.

Lemma missing_lines_reportable (d : dict) (names : list string) :
  (forall v, In v names -> reportable d v) ->
  exists lines, missing_lines (JObj d) names = Ok lines.
Proof.
  induction names as [|v names IH]; intros Hall; simpl.
  - now eexists.
  - destruct (patient_count_reportable d v) as (n & ->); [apply Hall; now left|].
    destruct IH as (lines & ->); [intros; apply Hall; now right|].
    simpl. now eexists.
Qed.

(** On a readable definition the scan gives what the design document's
    words give. *)
Lemma scan_patients_reportable (d : dict) (names : list string) :
  (forall v, In v names -> reportable d v) ->
  scan_patients (JObj d) names = Ok (spec_subject_ids d names).
Proof.
  unfold spec_subject_ids.
  induction names as [|v names IH]; intros Hall; simpl; [reflexivity|].
  destruct (Hall v (or_introl eq_refl)) as (definition & Hget & Hperf).
  unfold has_attached_performance at 1, performance_keys. rewrite Hget. simpl.
  unfold dict_mem. destruct Hperf as [Hnone|(record & Hsome)].
  - rewrite Hnone. simpl. apply IH. intros; apply Hall; now right.
  - rewrite Hsome. simpl. rewrite Hget, Hsome. reflexivity.
Qed.

Lemma In_insert_sorted (x s : string) (l : list string) :
  In x (insert_sorted s l) -> x = s \/ In x l.
Proof.
  induction l as [|y l IH]; simpl.
  - intros [<-|[]]. now left.
  - destruct (String.leb s y); simpl.
    + intros [<-|H]; [now left | now right].
    + intros [<-|H]; [right; now left|].
      destruct (IH H) as [->|?]; [now left | right; now right].
Qed.

Lemma In_sorted (x : string) (l : list string) : In x (sorted l) -> In x l.
Proof.
  induction l as [|y l IH]; simpl; [tauto|].
  intros H. apply In_insert_sorted in H. destruct H as [->|H]; [now left|].
  right. now apply IH.
Qed.

(** When the variable map is not a dict, an iteration that ends normally has
    changed nothing. *)
Lemma fuse_step_non_dict (now : clock) (perf : json) (v : string)
    (st st' : fuse_state) :
  (forall d, properties st <> JObj d) ->
  fuse_step now perf v st = Ok st' -> st' = st.
Proof.
  intros Hnd H. unfold fuse_step in H.
  bind_inv_as H known Hknown. destruct known.
  - bind_inv_as H entry Hentry. bind_inv_as H has_perf Hhas.
    destruct has_perf; [|now injection H as <-].
    bind_inv_as H pdat Hpdat. bind_inv_as H cv Hconv. destruct cv as [conv t'].
    bind_inv_as H def Hdef. apply py_getitem_Ok in Hdef.
    destruct Hdef as (d & Hd & _). now apply Hnd in Hd.
  - bind_inv_as H entry Hentry. bind_inv_as H has_perf Hhas.
    bind_inv_as H pt Hpt. destruct pt as [ph t'].
    bind_inv_as H props' Hset. apply py_setitem_Ok in Hset.
    destruct Hset as (d & Hd & _). now apply Hnd in Hd.
Qed.

Lemma fuse_loop_non_dict (now : clock) (perf : json) :
  forall keys st st',
    (forall d, properties st <> JObj d) ->
    fuse_loop now perf keys st = Ok st' -> st' = st.
Proof.
  induction keys as [|v keys IH]; simpl; intros st st' Hnd H.
  - now injection H as <-.
  - bind_inv_as H st1 Hstep. apply fuse_step_non_dict in Hstep; [|exact Hnd].
    subst st1. now apply IH.
Qed.

(* ================================================================== *)
(** ** Properties of the normaliser *)
(* ================================================================== *)

Lemma converted_records (now : clock) (t : nat) (items converted : dict)
    (t' : nat) :
  convert_performance_structure now t (JObj items) = Ok (converted, t') ->
  forall pid rec,
    dict_get pid converted = Some rec ->
    exists pdata flags,
      In (pid, pdata) items /\ patient_flags pdata = Ok flags /\
      flags <> [] /\ Forall true_flag flags /\
      rec = JObj (flags ++ [("last_updated", JStr (now t ++ "Z")%string)]).
Proof.
  intros H pid rec Hget.
  apply convert_performance_structure_Ok in H.
  destruct H as (items' & [= <-] & _ & Hloop).
  destruct (convert_loop_records _ _ _ _ Hloop pid rec Hget)
    as [Hnil|(pdata & flags & Hin & Hf & Hne & Hrec)]; [discriminate|].
  exists pdata, flags. repeat split; try assumption.
  now apply patient_flags_true_flags with pdata.
Qed.

Lemma converted_members (now : clock) (t : nat) (items converted : dict)
    (t' : nat) :
  convert_performance_structure now t (JObj items) = Ok (converted, t') ->
  forall pid,
    dict_mem pid converted = true <->
    exists pdata flags,
      In (pid, pdata) items /\ patient_flags pdata = Ok flags /\ flags <> [].
Proof.
  intros H pid.
  destruct (convert_performance_structure_Ok _ _ _ _ _ H)
    as (items' & [= <-] & _ & Hloop).
  rewrite (convert_loop_members _ _ _ _ Hloop pid). split.
  - intros [Hnil|Hex]; [discriminate | exact Hex].
  - intros Hex. now right.
Qed.

Lemma converted_last_updated (now : clock) (t : nat) (performance_data : json)
    (converted : dict) (t' : nat) (pid : string) (rec : json) :
  convert_performance_structure now t performance_data = Ok (converted, t') ->
  dict_get pid converted = Some rec ->
  py_getitem rec "last_updated" = Ok (JStr (now t ++ "Z")%string).
Proof.
  intros H Hget.
  destruct (convert_performance_structure_Ok _ _ _ _ _ H) as (items & -> & _ & _).
  destruct (converted_records _ _ _ _ _ H pid rec Hget)
    as (pdata & flags & _ & _ & _ & Htrue & ->).
  simpl. rewrite dict_get_app_fresh by now apply last_updated_fresh.
  reflexivity.
Qed.

(** C5. For every raw per-subject annotation map, a subject is a key of the
    normalised record exactly when the [if/elif] chain gives a non-empty flag
    set for one of its annotations; a stored record is that non-empty set of
    true flags followed by [last_updated], set to the timestamp of the call;
    no record is stored for an empty flag set. *)
Theorem normalized_iff_flags (now : clock) (t : nat) (items converted : dict)
    (t' : nat) :
  convert_performance_structure now t (JObj items) = Ok (converted, t') ->
  (forall pid,
     dict_mem pid converted = true <->
     exists pdata flags,
       In (pid, pdata) items /\ patient_flags pdata = Ok flags /\ flags <> [])
  /\
  (forall pid rec,
     dict_get pid converted = Some rec ->
     exists pdata flags,
       In (pid, pdata) items /\ patient_flags pdata = Ok flags /\
       flags <> [] /\ Forall true_flag flags /\
       rec = JObj (flags ++ [("last_updated", JStr (now t ++ "Z")%string)])).
Proof.
  intros H. split.
  - now apply converted_members with now t t'.
  - now apply converted_records with t'.
Qed.

Lemma normalized_iff_flags_witness :
  convert_performance_structure example_clock 0 (JObj blank_annotations)
    = Ok (blank_converted, 1) /\
  ((forall pid,
      dict_mem pid blank_converted = true <->
      exists pdata flags,
        In (pid, pdata) blank_annotations /\
        patient_flags pdata = Ok flags /\ flags <> [])
   /\
   (forall pid rec,
      dict_get pid blank_converted = Some rec ->
      exists pdata flags,
        In (pid, pdata) blank_annotations /\ patient_flags pdata = Ok flags /\
        flags <> [] /\ Forall true_flag flags /\
        rec = JObj (flags ++ [("last_updated",
                               JStr (example_clock 0 ++ "Z")%string)]))).
Proof.
  split; [reflexivity|].
  apply (normalized_iff_flags example_clock 0 blank_annotations
           blank_converted 1).
  reflexivity.
Defined.

Lemma blank_gives_no_flags (annotation : dict) :
  (exists b, dict_get "blank" annotation = Some b /\ py_truthy b = true) ->
  (forall m, dict_get "matched" annotation = Some m -> py_truthy m = false) ->
  patient_flags (JObj annotation) = Ok [].
Proof.
  intros (b & Hb & Htb) Hm. unfold patient_flags, py_in_and_truthy. simpl.
  unfold dict_mem.
  destruct (dict_get "matched" annotation) as [m|] eqn:Em; simpl.
  - rewrite (Hm m eq_refl). rewrite Hb. simpl. rewrite Htb. reflexivity.
  - rewrite Hb. simpl. rewrite Htb. reflexivity.
Qed.

(** C6. A subject whose annotation marks [blank] true, and does not mark
    [matched] true, is not a key of the normalised record, whatever else the
    annotation holds (an [unmatched] sub-object, other keys). *)
Theorem blank_subject_dropped (now : clock) (t : nat) (items : dict)
    (pid : string) (annotation converted : dict) (t' : nat) :
  NoDup (dict_keys items) ->
  In (pid, JObj annotation) items ->
  (exists b, dict_get "blank" annotation = Some b /\ py_truthy b = true) ->
  (forall m, dict_get "matched" annotation = Some m -> py_truthy m = false) ->
  convert_performance_structure now t (JObj items) = Ok (converted, t') ->
  dict_mem pid converted = false.
Proof.
  intros Hnd Hin Hblank Hmatched H.
  destruct (dict_mem pid converted) eqn:Emem; [|reflexivity].
  apply (converted_members _ _ _ _ _ H pid) in Emem.
  destruct Emem as (pdata & flags & Hin' & Hf & Hne).
  apply (In_dict_get _ _ _ Hnd) in Hin, Hin'.
  rewrite Hin in Hin'. injection Hin' as <-.
  rewrite (blank_gives_no_flags _ Hblank Hmatched) in Hf.
  injection Hf as <-. now contradiction Hne.
Qed.

Lemma blank_subject_dropped_witness :
  NoDup (dict_keys blank_annotations) /\
  dict_get "p1" blank_annotations =
    Some (JObj [("blank", JBool true);
                ("unmatched", JObj [("correction", JBool true)])]) /\
  convert_performance_structure example_clock 0 (JObj blank_annotations)
    = Ok (blank_converted, 1) /\
  dict_mem "p1" blank_converted = false.
Proof.
  assert (Hnd : NoDup (dict_keys blank_annotations)) by (simpl; nodup_strings).
  split; [exact Hnd|]. split; [reflexivity|]. split; [reflexivity|].
  apply (blank_subject_dropped example_clock 0 blank_annotations "p1"
           [("blank", JBool true);
            ("unmatched", JObj [("correction", JBool true)])]
           blank_converted 1 Hnd).
  - simpl. left. reflexivity.
  - exists (JBool true). split; reflexivity.
  - simpl. intros m Hm. discriminate Hm.
  - reflexivity.
Defined.

(* ================================================================== *)
(** ** The timestamp *)
(* ================================================================== *)

(** C1, as stated, fails on the design document's own example: the two
    normalisation calls of one run read the clock one after the other, and
    the outcomes of [age] and [weight] carry different timestamps. *)
Lemma batch_timestamp_counterexample :
  run_loop example_clock (JObj example_performance) (JObj example_definitions)
    = Ok example_state /\
  last_updated_of (properties example_state) "age" "p1"
    = Ok (JStr "2025-01-01T12:00:00.000001Z") /\
  last_updated_of (properties example_state) "weight" "p1"
    = Ok (JStr "2025-01-01T12:00:00.000002Z") /\
  ~ (forall v1 s1 v2 s2 ts1 ts2,
       last_updated_of (properties example_state) v1 s1 = Ok ts1 ->
       last_updated_of (properties example_state) v2 s2 = Ok ts2 ->
       ts1 = ts2).
Proof.
  split; [reflexivity|]. split; [reflexivity|]. split; [reflexivity|].
  intros Hall.
  specialize (Hall "age" "p1" "weight" "p1" _ _ eq_refl eq_refl).
  discriminate Hall.
Qed.

(** C1, amended. The timestamp is read from the ambient clock once per
    normalisation call: a run reads the clock once for every dataset key
    whose raw entry has a [performance] sub-object, and all the outcomes
    attached to one such variable carry one and the same reading, followed
    by [Z]. *)
Theorem timestamp_once_per_call (now : clock) (pd d0 : dict)
    (st : fuse_state) :
  NoDup (dict_keys pd) ->
  run_loop now (JObj pd) (JObj d0) = Ok st ->
  ticks st = length (filter (has_performance pd) (dict_keys pd)) /\
  (forall v,
     In v (dict_keys pd) -> has_performance pd v = true ->
     exists t,
       forall subject ts,
         last_updated_of (properties st) v subject = Ok ts ->
         ts = JStr (now t ++ "Z")%string) /\
  (forall t performance_data converted t',
     convert_performance_structure now t performance_data
       = Ok (converted, t') ->
     t' = S t /\
     forall pid rec,
       dict_get pid converted = Some rec ->
       py_getitem rec "last_updated" = Ok (JStr (now t ++ "Z")%string)).
Proof.
  intros Hnd H. apply run_loop_Ok in H. split; [|split].
  - destruct (fuse_loop_counts now pd _ (initial_state (JObj d0)) d0 st
                Hnd eq_refl H) as (d' & _ & _ & _ & _ & _ & _ & Ht).
    exact Ht.
  - destruct (fuse_loop_final_value now pd _ (initial_state (JObj d0)) d0 st
                Hnd eq_refl H) as (d' & Hd' & Hval).
    intros v Hin Hhas. destruct (Hval v Hin) as (entry & Hentry & Hcase).
    unfold has_performance in Hhas. rewrite Hentry in Hhas.
    unfold last_updated_of. rewrite Hd'. simpl.
    destruct Hcase as [(_ & Hp & _)
                      |[(_ & _ & pdat & conv & def & t & _ & Hc & _ & Hget)
                      |[(_ & Hp & _)
                      |(_ & _ & pdat & conv & fields & t & _ & Hc & Hph & Hget)]]].
    + rewrite Hp in Hhas. discriminate.
    + exists t. intros subject ts. rewrite Hget. simpl.
      rewrite dict_get_set_same. simpl.
      destruct (dict_get subject conv) as [rec|] eqn:Erec; [|discriminate].
      simpl. rewrite (converted_last_updated _ _ _ _ _ _ _ Hc Erec).
      now intros [= <-].
    + rewrite Hp in Hhas. discriminate.
    + exists t. intros subject ts. rewrite Hget. simpl.
      unfold create_placeholder_variable in Hph. injection Hph as <-. simpl.
      destruct (dict_get subject conv) as [rec|] eqn:Erec; [|discriminate].
      simpl. rewrite (converted_last_updated _ _ _ _ _ _ _ Hc Erec).
      now intros [= <-].
  - intros t pdat conv t' Hc. split; [now apply convert_ticks in Hc|].
    intros pid rec Hget. now apply (converted_last_updated _ _ _ _ _ _ _ Hc Hget).
Qed.

Lemma timestamp_once_per_call_witness :
  NoDup (dict_keys example_performance) /\
  run_loop example_clock (JObj example_performance) (JObj example_definitions)
    = Ok example_state /\
  ticks example_state = 2.
Proof.
  assert (Hnd : NoDup (dict_keys example_performance))
    by (simpl; nodup_strings).
  split; [exact Hnd|]. split; [reflexivity|].
  exact (proj1 (timestamp_once_per_call example_clock example_performance
                  example_definitions example_state Hnd eq_refl)).
Defined.

(* ================================================================== *)
(** ** The placeholder factory *)
(* ================================================================== *)

(** C3, as stated, fails: the description the factory writes is not the
    string of the design document (a hyphen and a capital P, where the
    document has a dash and a small p). *)
Lemma placeholder_description_counterexample :
  py_getitem (create_placeholder_variable "weight") "description"
  <> Ok (JStr (spec_placeholder_description "weight")).
Proof.
  vm_compute. intros H. discriminate H.
Qed.

(** C3, amended. For every variable name, the placeholder has the type union
    string-or-null, the default null, the description
    ["Placeholder for {var_name} - Please update with proper definition"],
    the group [unknown], the fixed notes, these five fields only, and no
    [performance] field. *)
Theorem placeholder_fields (var_name : string) :
  let placeholder := create_placeholder_variable var_name in
  py_getitem placeholder "anyOf"
    = Ok (JArr [JObj [("type", JStr "string")]; JObj [("type", JStr "null")]]) /\
  py_getitem placeholder "default" = Ok JNull /\
  py_getitem placeholder "description"
    = Ok (JStr ("Placeholder for " ++ var_name
                ++ " - Please update with proper definition")%string) /\
  py_getitem placeholder "group_id" = Ok (JStr "unknown") /\
  py_getitem placeholder "notes" = Ok (JStr placeholder_notes) /\
  py_keys placeholder
    = Ok ["anyOf"; "default"; "description"; "group_id"; "notes"] /\
  py_in "performance" placeholder = Ok false.
Proof.
  repeat split; reflexivity.
Qed.

(* ================================================================== *)
(** ** Well-shaped inputs raise nothing *)
(* ================================================================== *)

Lemma py_in_and_truthy_object (k : string) (d : dict) :
  exists b, py_in_and_truthy k (JObj d) = Ok b.
Proof.
  unfold py_in_and_truthy. simpl. unfold dict_mem.
  destruct (dict_get k d); simpl; now eexists.
Qed.

Lemma unmatched_loop_returns (u : dict) :
  forall pairs acc, exists flags,
    unmatched_loop (JObj u) pairs acc = Ok flags.
Proof.
  induction pairs as [|[old_key new_key] pairs IH]; intros acc; simpl.
  - now eexists.
  - destruct (py_in_and_truthy_object old_key u) as (b & ->). simpl. apply IH.
Qed.

Lemma patient_flags_returns (a : json) :
  annotation_ok a = true -> exists flags, patient_flags a = Ok flags.
Proof.
  destruct a as [| | | | | |fields]; try discriminate.
  unfold annotation_ok, patient_flags. intros Hok.
  destruct (py_in_and_truthy_object "matched" fields) as (bm & ->).
  unfold bind at 1. cbv beta iota. destruct bm; [now eexists|].
  destruct (py_in_and_truthy_object "blank" fields) as (bb & ->).
  unfold bind at 1. cbv beta iota. destruct bb; [now eexists|].
  unfold py_in, py_getitem, dict_mem.
  destruct (dict_get "unmatched" fields) as [u|]; unfold bind at 1;
    cbv beta iota; [|now eexists].
  unfold bind at 1. cbv beta iota.
  destruct u; try discriminate. apply unmatched_loop_returns.
Qed.

Lemma convert_loop_returns (ts : string) :
  forall items acc,
    forallb (fun kv => annotation_ok (snd kv)) items = true ->
    exists converted, convert_loop ts items acc = Ok converted.
Proof.
  induction items as [|[pid a] items IH]; intros acc Hok; simpl.
  - now eexists.
  - simpl in Hok. apply andb_true_iff in Hok. destruct Hok as [Ha Hrest].
    destruct (patient_flags_returns a Ha) as (flags & ->). simpl.
    now apply IH.
Qed.

Lemma convert_returns (now : clock) (t : nat) (p : json) :
  record_ok p = true ->
  exists converted,
    convert_performance_structure now t p = Ok (converted, S t).
Proof.
  destruct p as [| | | | | |items]; try discriminate. simpl. intros Hok.
  unfold convert_performance_structure, convert_with_timestamp. simpl.
  destruct (convert_loop_returns (now t ++ "Z")%string items [] Hok)
    as (converted & ->).
  simpl. now eexists.
Qed.

Lemma definitions_ok_get (d : dict) (k : string) (v : json) :
  definitions_ok d = true -> dict_get k d = Some v -> is_object v = true.
Proof.
  intros Hok Hget. apply dict_get_In in Hget.
  unfold definitions_ok in Hok. rewrite forallb_forall in Hok.
  exact (Hok _ Hget).
Qed.

Lemma definitions_ok_set (d : dict) (k : string) (fields : dict) :
  definitions_ok d = true ->
  definitions_ok (dict_set k (JObj fields) d) = true.
Proof.
  unfold definitions_ok. rewrite !forallb_forall. intros Hok [k' v] Hin.
  apply In_dict_set in Hin. destruct Hin as [[_ ->]|Hin]; [reflexivity|].
  exact (Hok _ Hin).
Qed.

(** An iteration on a well-shaped entry ends normally and keeps the variable
    map a map of objects. *)
Lemma fuse_step_returns (now : clock) (pd : dict) (v : string) (entry : json)
    (st : fuse_state) (d : dict) :
  properties st = JObj d ->
  definitions_ok d = true ->
  dict_get v pd = Some entry ->
  entry_ok entry = true ->
  exists st' d',
    fuse_step now (JObj pd) v st = Ok st' /\
    properties st' = JObj d' /\ definitions_ok d' = true.
Proof.
  intros Hd Hdefs Hentry Hok.
  destruct entry as [| | | | | |fields]; try discriminate.
  unfold entry_ok in Hok.
  unfold fuse_step. rewrite Hd.
  change (py_in v (JObj d)) with (Ok (dict_mem v d)). bind_step.
  rewrite (py_getitem_dict _ _ _ Hentry). bind_step.
  change (py_in "performance" (JObj fields))
    with (Ok (dict_mem "performance" fields)). bind_step.
  assert (Hknown : dict_mem v d = true ->
                   exists def, py_getitem (JObj d) v = Ok (JObj def)).
  { unfold dict_mem. intros Hmem.
    destruct (dict_get v d) as [definition|] eqn:Hdef; [|discriminate].
    pose proof (definitions_ok_get _ _ _ Hdefs Hdef) as Hobj.
    destruct definition as [| | | | | |def]; try discriminate.
    exists def. now apply py_getitem_dict. }
  destruct (dict_get "performance" fields) as [p|] eqn:Hp.
  - assert (Hm : dict_mem "performance" fields = true)
      by (unfold dict_mem; now rewrite Hp).
    rewrite Hm, (py_getitem_dict _ _ _ Hp). bind_step.
    destruct (convert_returns now (ticks st) p Hok) as (converted & ->).
    bind_step.
    destruct (dict_mem v d) eqn:Hmem.
    + destruct (Hknown eq_refl) as (def & ->). bind_step.
      simpl. do 2 eexists. split; [reflexivity|]. simpl.
      split; [reflexivity|]. now apply definitions_ok_set.
    + simpl. do 2 eexists. split; [reflexivity|]. simpl.
      split; [reflexivity|]. now apply definitions_ok_set.
  - assert (Hm : dict_mem "performance" fields = false)
      by (unfold dict_mem; now rewrite Hp).
    rewrite Hm. bind_step.
    destruct (dict_mem v d) eqn:Hmem.
    + do 2 eexists. split; [reflexivity|]. split; [exact Hd | exact Hdefs].
    + simpl. do 2 eexists. split; [reflexivity|]. simpl.
      split; [reflexivity|]. now apply definitions_ok_set.
Qed.

Lemma fuse_loop_returns (now : clock) (pd : dict) :
  dataset_ok pd = true ->
  forall keys st d,
    incl keys (dict_keys pd) ->
    properties st = JObj d ->
    definitions_ok d = true ->
    exists st', fuse_loop now (JObj pd) keys st = Ok st'.
Proof.
  intros Hpd. induction keys as [|v keys IH]; intros st d Hincl Hd Hdefs; simpl.
  - now eexists.
  - assert (Hv : In v (dict_keys pd)) by (apply Hincl; now left).
    apply dict_mem_In in Hv. unfold dict_mem in Hv.
    destruct (dict_get v pd) as [entry|] eqn:Hentry; [|discriminate].
    assert (Hok : entry_ok entry = true).
    { unfold dataset_ok in Hpd. rewrite forallb_forall in Hpd.
      exact (Hpd _ (dict_get_In _ _ _ Hentry)). }
    destruct (fuse_step_returns now pd v entry st d Hd Hdefs Hentry Hok)
      as (st1 & d1 & -> & Hd1 & Hdefs1).
    simpl. apply (IH st1 d1); try assumption.
    intros k Hk. apply Hincl. now right.
Qed.

(** On inputs of the shapes the design document names, the loop ends
    normally. *)
Lemma run_loop_returns (now : clock) (pd d0 : dict) :
  dataset_ok pd = true ->
  definitions_ok d0 = true ->
  exists st, run_loop now (JObj pd) (JObj d0) = Ok st.
Proof.
  intros Hpd Hdefs. unfold run_loop. simpl.
  apply (fuse_loop_returns now pd Hpd (dict_keys pd)
           (initial_state (JObj d0)) d0); try assumption; try reflexivity.
  apply incl_refl.
Qed.

(* ================================================================== *)
(** ** The subject-ID set *)
(* ================================================================== *)

(** For a recorded name, a [performance] field is attached exactly when the
    raw entry had a [performance] sub-object. *)
Lemma attached_iff_raw (now : clock) (pd d0 : dict) (st : fuse_state) :
  NoDup (dict_keys pd) ->
  run_loop now (JObj pd) (JObj d0) = Ok st ->
  exists d', properties st = JObj d' /\
    forall v, In v (variables_with_performance st) ->
      has_attached_performance d' v = has_performance pd v.
Proof.
  intros Hnd H. apply run_loop_Ok in H.
  destruct (fuse_loop_final_value now pd _ (initial_state (JObj d0)) d0 st
              Hnd eq_refl H) as (d' & Hd' & Hval).
  destruct (fuse_loop_counts now pd _ (initial_state (JObj d0)) d0 st
              Hnd eq_refl H) as (d'' & _ & _ & _ & _ & Hw & _).
  simpl in Hw. exists d'. split; [exact Hd'|]. intros v Hv.
  rewrite Hw in Hv. apply filter_In in Hv. destruct Hv as [Hin Hrec].
  destruct (Hval v Hin) as (entry & Hentry & Hcase).
  unfold absent in Hrec. unfold has_performance in *. rewrite Hentry in *.
  unfold has_attached_performance.
  destruct Hcase as [(Hmem & Hp & _)
                    |[(_ & Hp & pdat & conv & def & t & _ & _ & _ & Hget)
                    |[(_ & Hp & Hget)
                    |(_ & Hp & pdat & conv & fields & t & _ & _ & Hph & Hget)]]];
    rewrite Hp in *.
  - rewrite Hmem in Hrec. discriminate.
  - rewrite Hget. unfold dict_mem. now rewrite dict_get_set_same.
  - rewrite Hget. reflexivity.
  - rewrite Hget. unfold create_placeholder_variable in Hph.
    injection Hph as <-. reflexivity.
Qed.

(** C2, as stated, fails: when the first recorded name is a placeholder
    without a [performance] field and a later one has a record, the tool
    reports no subject, where the scan of the whole list finds [p1]. *)
Lemma subject_ids_counterexample :
  run_loop example_clock (JObj bare_first_performance) (JObj [])
    = Ok bare_first_state /\
  variables_with_performance bare_first_state = ["height"; "weight"] /\
  count_patients bare_first_state = Ok [] /\
  exists d,
    properties bare_first_state = JObj d /\
    has_attached_performance d "weight" = true /\
    spec_subject_ids d (variables_with_performance bare_first_state) = ["p1"] /\
    count_patients bare_first_state
    <> Ok (spec_subject_ids d (variables_with_performance bare_first_state)).
Proof.
  split; [reflexivity|]. split; [reflexivity|]. split; [reflexivity|].
  eexists. split; [reflexivity|]. split; [reflexivity|].
  split; [reflexivity|]. discriminate.
Qed.

(** C2, amended. For every fusion result, the reported subject-ID set is the
    key set of the record attached to the first entry of
    [variables_with_performance] when that entry has a [performance] field;
    it is empty when the list is empty or when its first entry has none,
    which for a recorded name means that its raw entry had no [performance]
    sub-object.  Only the first entry is looked at. *)
Theorem subject_ids_first_entry (now : clock) (pd d0 : dict)
    (st : fuse_state) :
  NoDup (dict_keys pd) ->
  run_loop now (JObj pd) (JObj d0) = Ok st ->
  exists d', properties st = JObj d' /\
    count_patients st
      = Ok (spec_subject_ids d' (firstn 1 (variables_with_performance st))) /\
    count_patients st
      = Ok (match variables_with_performance st with
            | [] => []
            | v :: _ =>
                if has_attached_performance d' v then performance_keys d' v
                else []
            end) /\
    (forall v, In v (variables_with_performance st) ->
       has_attached_performance d' v = has_performance pd v).
Proof.
  intros Hnd H.
  destruct (recorded_reportable _ _ _ _ Hnd H) as (d' & Hd' & Hrep).
  destruct (attached_iff_raw _ _ _ _ Hnd H) as (d'' & Hd'' & Hatt).
  rewrite Hd' in Hd''. injection Hd'' as <-.
  assert (Hscan : count_patients st
            = Ok (spec_subject_ids d'
                    (firstn 1 (variables_with_performance st)))).
  { unfold count_patients. rewrite Hd'. apply scan_patients_reportable.
    intros v Hv. apply Hrep. left.
    destruct (variables_with_performance st) as [|v0 l]; simpl in Hv.
    - contradiction.
    - destruct Hv as [<-|[]]. now left. }
  exists d'. split; [exact Hd'|]. split; [exact Hscan|]. split; [|exact Hatt].
  rewrite Hscan. unfold spec_subject_ids.
  destruct (variables_with_performance st) as [|v0 l]; simpl; [reflexivity|].
  now destruct (has_attached_performance d' v0).
Qed.

Lemma subject_ids_first_entry_witness :
  NoDup (dict_keys example_performance) /\
  run_loop example_clock (JObj example_performance) (JObj example_definitions)
    = Ok example_state /\
  exists d', properties example_state = JObj d' /\
    count_patients example_state
      = Ok (spec_subject_ids d'
              (firstn 1 (variables_with_performance example_state))) /\
    count_patients example_state
      = Ok (match variables_with_performance example_state with
            | [] => []
            | v :: _ =>
                if has_attached_performance d' v then performance_keys d' v
                else []
            end) /\
    (forall v, In v (variables_with_performance example_state) ->
       has_attached_performance d' v = has_performance example_performance v).
Proof.
  assert (Hnd : NoDup (dict_keys example_performance))
    by (simpl; nodup_strings).
  split; [exact Hnd|]. split; [reflexivity|].
  exact (subject_ids_first_entry example_clock example_performance
           example_definitions example_state Hnd eq_refl).
Defined.

(* ================================================================== *)
(** ** The statistics of a run *)
(* ================================================================== *)

(** C7. After every fusion run, [created_count] plus [fused_count] (the
    existing variables that had a record attached) is at most the length of
    [variables_with_performance], which is at most [len(properties)];
    [created_count] is the number of dataset keys absent from the original
    definition map, and [fused_count] the number of those present in it whose
    raw entry has a [performance] sub-object. *)
Theorem fusion_counts_bounded (now : clock) (pd d0 : dict)
    (st : fuse_state) :
  NoDup (dict_keys pd) ->
  run_loop now (JObj pd) (JObj d0) = Ok st ->
  created_count st + fused_count st
    <= length (variables_with_performance st) /\
  (exists total,
     py_len (properties st) = Ok total /\
     length (variables_with_performance st) <= total) /\
  created_count st = length (filter (absent d0) (dict_keys pd)) /\
  fused_count st =
    length (filter (fun k => dict_mem k d0 && has_performance pd k)%bool
              (dict_keys pd)).
Proof.
  intros Hnd H. apply run_loop_Ok in H.
  destruct (fuse_loop_counts now pd _ (initial_state (JObj d0)) d0 st
              Hnd eq_refl H) as (d' & Hd' & Hk & _ & Hc & Hw & Hf & _).
  simpl in Hc, Hw, Hf.
  pose proof (filter_absent_or_length d0 pd (dict_keys pd)) as Hsplit.
  pose proof (known_keys_length d0 pd (dict_keys pd) Hnd) as Hknown.
  rewrite Hw, Hc, Hf, Hsplit. split; [lia|]. split; [|split; reflexivity].
  exists (length d'). rewrite Hd'. split; [reflexivity|].
  apply (f_equal (@length string)) in Hk. rewrite length_app in Hk.
  set (created := length (filter (absent d0) (dict_keys pd))) in *.
  unfold dict_keys in Hk. rewrite !length_map in Hk. lia.
Qed.

Lemma fusion_counts_bounded_witness :
  NoDup (dict_keys example_performance) /\
  run_loop example_clock (JObj example_performance) (JObj example_definitions)
    = Ok example_state /\
  created_count example_state = 1 /\ fused_count example_state = 1 /\
  created_count example_state + fused_count example_state
    <= length (variables_with_performance example_state).
Proof.
  assert (Hnd : NoDup (dict_keys example_performance))
    by (simpl; nodup_strings).
  split; [exact Hnd|]. split; [reflexivity|].
  split; [reflexivity|]. split; [reflexivity|].
  exact (proj1 (fusion_counts_bounded example_clock example_performance
                  example_definitions example_state Hnd eq_refl)).
Defined.

Lemma dict_get_keys (k : string) (v : json) (d : dict) :
  dict_get k d = Some v -> In k (dict_keys d).
Proof.
  intros H. apply dict_mem_In. unfold dict_mem. now rewrite H.
Qed.

(** C4. For every key [v] of the performance dataset: when [v] is absent
    from the definition map, [v] is recorded as missing (once, and
    [created_count] counts the missing names), a placeholder is stored under
    [v] (the bare placeholder when the raw entry has no [performance]
    sub-object) and [v] is added to [variables_with_performance], whether or
    not the raw entry has a [performance] sub-object; when [v] is a key of
    the definition map and its raw entry has no [performance] sub-object,
    the definition of [v] is unchanged and [v] is neither missing, nor in
    [variables_with_performance], nor among the keys [fused_count] counts. *)
Theorem missing_always_recorded (now : clock) (pd d0 : dict)
    (st : fuse_state) (v : string) (entry : json) :
  NoDup (dict_keys pd) ->
  run_loop now (JObj pd) (JObj d0) = Ok st ->
  dict_get v pd = Some entry ->
  (created_count st = length (missing_variables st) /\
   NoDup (missing_variables st) /\
   fused_count st =
     length (filter (fun k => dict_mem k d0 && has_performance pd k)%bool
               (dict_keys pd))) /\
  (dict_mem v d0 = false ->
     In v (missing_variables st) /\
     In v (variables_with_performance st) /\
     exists placeholder,
       py_getitem (properties st) v = Ok placeholder /\
       (forall field, field <> "performance" ->
          py_getitem placeholder field
          = py_getitem (create_placeholder_variable v) field) /\
       (py_in "performance" entry = Ok false ->
          placeholder = create_placeholder_variable v)) /\
  (dict_mem v d0 = true -> py_in "performance" entry = Ok false ->
     py_getitem (properties st) v = py_getitem (JObj d0) v /\
     ~ In v (missing_variables st) /\
     ~ In v (variables_with_performance st) /\
     ~ In v (filter (fun k => dict_mem k d0 && has_performance pd k)%bool
               (dict_keys pd))).
Proof.
  intros Hnd H Hentry. apply run_loop_Ok in H.
  destruct (fuse_loop_counts now pd _ (initial_state (JObj d0)) d0 st
              Hnd eq_refl H) as (d' & Hd' & _ & Hm & Hc & Hw & Hf & _).
  destruct (fuse_loop_final_value now pd _ (initial_state (JObj d0)) d0 st
              Hnd eq_refl H) as (d'' & Hd'' & Hval).
  rewrite Hd' in Hd''. injection Hd'' as <-.
  simpl in Hm, Hc, Hw, Hf.
  pose proof (dict_get_keys _ _ _ Hentry) as Hin.
  destruct (Hval v Hin) as (entry' & Hentry' & Hcase).
  rewrite Hentry in Hentry'. injection Hentry' as <-.
  assert (Hhas : forall b, py_in "performance" entry = Ok b ->
                           has_performance pd v = b).
  { intros b Hb. unfold has_performance. now rewrite Hentry, Hb. }
  split; [|split].
  - rewrite Hm, Hc, Hf. repeat split. now apply NoDup_filter.
  - intros Hmem. rewrite Hm, Hw, Hd'. split; [|split].
    + apply filter_In. split; [exact Hin|]. unfold absent. now rewrite Hmem.
    + apply filter_In. split; [exact Hin|]. unfold absent. now rewrite Hmem.
    + destruct Hcase as [(Hmem' & _)
                        |[(Hmem' & _)
                        |[(_ & Hp & Hget)
                        |(_ & Hp & pdat & conv & fields & t & _ & _ & Hph & Hget)]]];
        try congruence.
      * exists (create_placeholder_variable v).
        split; [now apply py_getitem_dict|]. split; reflexivity.
      * exists (JObj (fields ++ [("performance", JObj conv)])).
        split; [now apply py_getitem_dict|]. split.
        -- intros field Hfield. rewrite Hph. unfold py_getitem.
           rewrite dict_get_app_fresh.
           ++ apply String.eqb_neq in Hfield. now rewrite Hfield.
           ++ unfold create_placeholder_variable in Hph. now injection Hph as <-.
        -- intros Hp'. congruence.
  - intros Hmem Hp. rewrite Hm, Hw, Hd'. simpl.
    destruct Hcase as [(_ & _ & Hget)
                      |[(_ & Hp' & _)
                      |[(Hmem' & _)
                      |(Hmem' & _)]]]; try congruence.
    rewrite Hget. split; [reflexivity|].
    repeat split; intros Hv; apply filter_In in Hv; destruct Hv as [_ Hv];
      unfold absent in Hv; rewrite Hmem, ?(Hhas false Hp) in Hv;
      discriminate Hv.
Qed.

Lemma missing_always_recorded_witness :
  NoDup (dict_keys bare_first_performance) /\
  run_loop example_clock (JObj bare_first_performance) (JObj [])
    = Ok bare_first_state /\
  dict_get "height" bare_first_performance = Some (JObj []) /\
  In "height" (missing_variables bare_first_state) /\
  In "height" (variables_with_performance bare_first_state).
Proof.
  assert (Hnd : NoDup (dict_keys bare_first_performance))
    by (simpl; nodup_strings).
  split; [exact Hnd|]. split; [reflexivity|]. split; [reflexivity|].
  pose proof (missing_always_recorded example_clock bare_first_performance []
                bare_first_state "height" (JObj []) Hnd eq_refl eq_refl)
    as (_ & Habsent & _).
  destruct (Habsent eq_refl) as (Hm & Hw & _). split; assumption.
Defined.

(* ================================================================== *)
(** ** The whole run *)
(* ================================================================== *)

(** [fuse_schemas] once both files are loaded and the loop has ended. *)
Lemma fuse_schemas_after_loop (w : World) (main_schema : json) (pd : dict)
    (props wrapper : json) (n : nat) (st : fuse_state) :
  main_file w = Loaded main_schema ->
  performance_file w = Loaded (JObj pd) ->
  get_properties main_schema = Ok (props, wrapper) ->
  py_len props = Ok n ->
  run_loop (now w) (JObj pd) props = Ok st ->
  let printed :=
    [MsgLoaded; MsgLoaded; MsgMainVariables n;
     MsgPerformanceVariables (length pd);
     MsgFused (fused_count st); MsgCreated (created_count st)] in
  fuse_schemas w =
    match output_write w with
    | Some e => mkOutcome (Returned false) None None (printed ++ [MsgErrorWrite e])
    | None => summary w st (printed ++ [MsgSaved])
                (alias_properties wrapper (properties st))
    end.
Proof.
  intros Hmain Hperf Hprops Hlen Hloop. unfold fuse_schemas.
  rewrite Hmain, Hperf, Hprops, Hlen. simpl py_len. cbv iota beta.
  rewrite Hloop. reflexivity.
Qed.

(** The length of the fused variable map is zero exactly when both inputs
    are empty. *)
Lemma fused_length_zero (now : clock) (pd d0 : dict) (st : fuse_state) :
  NoDup (dict_keys pd) ->
  run_loop now (JObj pd) (JObj d0) = Ok st ->
  py_len (properties st) = Ok 0 <-> d0 = [] /\ pd = [].
Proof.
  intros Hnd H. split.
  - intros Hlen. apply run_loop_Ok in H.
    destruct (fuse_loop_counts now pd _ (initial_state (JObj d0)) d0 st
                Hnd eq_refl H) as (d' & Hd' & Hk & _).
    rewrite Hd' in Hlen. simpl in Hlen. injection Hlen as Hlen.
    apply length_zero_iff_nil in Hlen. subst d'. simpl in Hk.
    symmetry in Hk. apply app_eq_nil in Hk. destruct Hk as [Hk0 Hk1].
    apply map_eq_nil in Hk0. subst d0. split; [reflexivity|].
    destruct pd as [|[k x] pd]; [reflexivity|]. discriminate Hk1.
  - intros [-> ->]. simpl in H. injection H as <-. reflexivity.
Qed.

(** The reporting tail after a loop over a definition map: it fails on the
    division when the fused map is empty, and returns [True] otherwise. *)
Lemma summary_outcome (w : World) (pd d0 : dict) (st : fuse_state)
    (printed : list message) (doc : json) :
  NoDup (dict_keys pd) ->
  run_loop (now w) (JObj pd) (JObj d0) = Ok st ->
  let o := summary w st printed doc in
  output_file o = Some doc /\
  ((d0 = [] /\ pd = [] /\ result o = Uncaught ZeroDivisionError) \/
   (~ (d0 = [] /\ pd = []) /\ result o = Returned true /\
    In MsgCompleted (console o) /\
    (missing_variables st <> [] ->
     match report_write w with
     | Some e => In (MsgWarnReport e) (console o) /\ report_file o = None
     | None => In MsgReportSaved (console o) /\ report_file o <> None
     end))).
Proof.
  intros Hnd H o. subst o.
  pose proof (fused_length_zero _ _ _ _ Hnd H) as Hzero.
  destruct (recorded_reportable _ _ _ _ Hnd H) as (d' & Hd' & Hrep).
  unfold summary. rewrite Hd' in *. simpl py_len in *. cbv iota beta.
  destruct (Nat.eqb (length d') 0) eqn:Elen.
  - apply Nat.eqb_eq in Elen. rewrite Elen in Hzero.
    destruct (proj1 Hzero eq_refl) as [-> ->].
    split; [reflexivity|]. left. repeat split.
  - apply Nat.eqb_neq in Elen.
    assert (Hne : ~ (d0 = [] /\ pd = [])).
    { intros Hboth. apply Hzero in Hboth. injection Hboth as Hboth. lia. }
    assert (Hpat : exists patients, count_patients st = Ok patients).
    { unfold count_patients. rewrite Hd'. eexists.
      apply scan_patients_reportable. intros v Hv. apply Hrep. left.
      destruct (variables_with_performance st) as [|v0 l]; simpl in Hv.
      - contradiction.
      - destruct Hv as [<-|[]]. now left. }
    destruct Hpat as (patients & ->). cbv iota beta.
    destruct (missing_variables st) as [|m ms] eqn:Emiss.
    + simpl. split; [reflexivity|]. right. split; [exact Hne|].
      split; [reflexivity|]. split; [|congruence].
      apply in_or_app. right. now left.
    + unfold missing_section. rewrite Hd', Emiss.
      destruct (missing_lines_reportable d' (sorted (m :: ms))) as (lines & ->).
      { intros v Hv. apply In_sorted in Hv. apply Hrep. now right. }
      destruct (report_write w) as [e|]; simpl.
      * split; [reflexivity|]. right. split; [exact Hne|].
        split; [reflexivity|]. split.
        -- apply in_or_app. right. right. now left.
        -- intros _. split; [|reflexivity]. apply in_or_app. right. now left.
      * split; [reflexivity|]. right. split; [exact Hne|].
        split; [reflexivity|]. split.
        -- apply in_or_app. right. right. now left.
        -- intros _. split; [|discriminate]. apply in_or_app. right. now left.
Qed.

Lemma missing_needs_dict (now : clock) (pd : dict) (props : json)
    (st : fuse_state) :
  run_loop now (JObj pd) props = Ok st ->
  missing_variables st <> [] ->
  exists d0, props = JObj d0.
Proof.
  intros H Hmiss. apply run_loop_Ok in H.
  destruct props as [| b | z | m e | s | l | d0];
    try (apply fuse_loop_non_dict in H;
         [subst st; now contradiction Hmiss | intros d; discriminate]).
  now exists d0.
Qed.

Lemma dict_set_same_value (k : string) (v : json) (d : dict) :
  dict_get k d = Some v -> dict_set k v d = d.
Proof.
  induction d as [|[k' v'] d IH]; simpl; [discriminate|].
  destruct (String.eqb_spec k k') as [->|Hne].
  - now intros [= ->].
  - intros H. now rewrite IH.
Qed.

(** Before the loop has changed anything, the document to dump is the
    wrapper itself. *)
Lemma alias_properties_initial (main_schema props wrapper : json) :
  get_properties main_schema = Ok (props, wrapper) ->
  alias_properties wrapper props = wrapper.
Proof.
  unfold get_properties. intros H. bind_inv_as H wrapped Hin.
  destruct wrapped.
  - bind_inv_as H p Hget. injection H as <- <-.
    apply py_getitem_Ok in Hget. destruct Hget as (d & -> & Hget).
    simpl. now rewrite dict_set_same_value.
  - injection H as <- <-. reflexivity.
Qed.

(** With a dataset of zero entries the document written is the loaded
    schema, variable map untouched; the call then returns [True] unless the
    variable map is empty, where the coverage line divides by zero. *)
Lemma zero_entries_identity (w : World) (main_schema props wrapper : json)
    (n : nat) :
  main_file w = Loaded main_schema ->
  performance_file w = Loaded (JObj []) ->
  output_write w = None ->
  get_properties main_schema = Ok (props, wrapper) ->
  py_len props = Ok n ->
  output_file (fuse_schemas w) = Some wrapper /\
  (n <> 0 -> result (fuse_schemas w) = Returned true) /\
  (n = 0 -> result (fuse_schemas w) = Uncaught ZeroDivisionError).
Proof.
  intros Hmain Hperf Hout Hprops Hlen.
  rewrite (fuse_schemas_after_loop w main_schema [] props wrapper n
             (initial_state props) Hmain Hperf Hprops Hlen eq_refl).
  rewrite Hout. simpl properties.
  rewrite (alias_properties_initial _ _ _ Hprops).
  unfold summary. simpl properties. rewrite Hlen. cbv iota beta.
  destruct (Nat.eqb_spec n 0) as [->|Hn].
  - repeat split. intros Hn. now contradiction Hn.
  - repeat split. intros ->. now contradiction Hn.
Qed.

(** On inputs of the shapes the design document names, with both files
    loaded, the output writable and not both inputs empty, the call returns
    [True] and the process ends with status 0. *)
Lemma fuse_schemas_succeeds (w : World) (main_schema wrapper : json)
    (d0 pd : dict) :
  main_file w = Loaded main_schema ->
  performance_file w = Loaded (JObj pd) ->
  get_properties main_schema = Ok (JObj d0, wrapper) ->
  NoDup (dict_keys pd) ->
  dataset_ok pd = true ->
  definitions_ok d0 = true ->
  output_write w = None ->
  ~ (d0 = [] /\ pd = []) ->
  result (fuse_schemas w) = Returned true /\ main w = 0.
Proof.
  intros Hmain Hperf Hprops Hnd Hpd Hdefs Hout Hne.
  destruct (run_loop_returns (now w) pd d0 Hpd Hdefs) as (st & Hloop).
  pose proof (fuse_schemas_after_loop w main_schema pd (JObj d0) wrapper
                (length d0) st Hmain Hperf Hprops eq_refl Hloop) as Hrun.
  cbv zeta in Hrun. rewrite Hout in Hrun. unfold main. rewrite Hrun.
  match goal with
  | |- context [summary w st ?printed ?doc] =>
      destruct (summary_outcome w pd d0 st printed doc Hnd Hloop)
        as (_ & [(-> & -> & _)|(_ & Hres & _)])
  end.
  - exfalso. apply Hne. now split.
  - rewrite Hres. now split.
Qed.

(** C8 fails on the empty definition schema: with a dataset of zero
    entries the schema is written unchanged, but the call then raises
    [ZeroDivisionError] on the coverage line and the process ends with
    status 1. *)
Theorem zero_entries_empty_schema_raises :
  result (fuse_schemas empty_world) = Uncaught ZeroDivisionError /\
  output_file (fuse_schemas empty_world)
    = Some (JObj [("properties", JObj [])]) /\
  main empty_world = 1.
Proof.
  repeat split.
Qed.

(** C10. When the variable map of the definition schema and the performance
    dataset are both empty, the run does not complete successfully: the
    coverage line divides by [len(properties)], which after the loop is zero
    exactly in this case; once the fused document is written, the call
    raises [ZeroDivisionError] exactly in this case and returns [True]
    otherwise. *)
Theorem empty_inputs_divide_by_zero (w : World) (main_schema wrapper : json)
    (d0 pd : dict) (st : fuse_state) :
  main_file w = Loaded main_schema ->
  performance_file w = Loaded (JObj pd) ->
  NoDup (dict_keys pd) ->
  get_properties main_schema = Ok (JObj d0, wrapper) ->
  run_loop (now w) (JObj pd) (JObj d0) = Ok st ->
  (py_len (properties st) = Ok 0 <-> d0 = [] /\ pd = []) /\
  (d0 = [] /\ pd = [] ->
     result (fuse_schemas w) <> Returned true /\ main w = 1) /\
  (output_write w = None ->
     (result (fuse_schemas w) = Uncaught ZeroDivisionError
      <-> d0 = [] /\ pd = []) /\
     (result (fuse_schemas w) = Returned true <-> ~ (d0 = [] /\ pd = []))).
Proof.
  intros Hmain Hperf Hnd Hprops Hloop.
  pose proof (fuse_schemas_after_loop w main_schema pd (JObj d0) wrapper
                (length d0) st Hmain Hperf Hprops eq_refl Hloop) as Hrun.
  cbv zeta in Hrun.
  split; [now apply fused_length_zero with (now w)|].
  assert (Hwritten :
    output_write w = None ->
    (result (fuse_schemas w) = Uncaught ZeroDivisionError
     <-> d0 = [] /\ pd = []) /\
    (result (fuse_schemas w) = Returned true <-> ~ (d0 = [] /\ pd = []))).
  { intros Hout. rewrite Hrun, Hout.
    match goal with
    | |- context [summary w st ?printed ?doc] =>
        destruct (summary_outcome w pd d0 st printed doc Hnd Hloop)
          as (_ & [(-> & -> & Hres)|(Hne & Hres & _)]);
        rewrite Hres
    end.
    - split; split; try tauto; try discriminate.
    - split; split; try tauto; try discriminate. }
  split; [|exact Hwritten].
  intros Hboth. unfold main.
  destruct (output_write w) as [e|] eqn:Hout.
  - rewrite Hrun. simpl. split; [discriminate | reflexivity].
  - destruct (Hwritten eq_refl) as [Hzero _].
    rewrite (proj2 Hzero Hboth). split; [discriminate | reflexivity].
Qed.

Lemma empty_inputs_divide_by_zero_witness :
  main_file empty_world = Loaded (JObj []) /\
  performance_file empty_world = Loaded (JObj []) /\
  result (fuse_schemas empty_world) <> Returned true /\
  main empty_world = 1.
Proof.
  split; [reflexivity|]. split; [reflexivity|].
  apply (empty_inputs_divide_by_zero empty_world (JObj [])
           (JObj [("properties", JObj [])]) [] [] (initial_state (JObj []))
           eq_refl eq_refl (NoDup_nil string) eq_refl eq_refl).
  split; reflexivity.
Defined.

(** The fate of the report file never changes how the call ends. *)
Lemma result_independent_of_report (w : World) (r : option exn) :
  result (fuse_schemas (with_report_write r w)) = result (fuse_schemas w).
Proof.
  unfold fuse_schemas. simpl.
  destruct (main_file w) as [main_schema|e]; [|reflexivity].
  destruct (performance_file w) as [performance_schema|e]; [|reflexivity].
  destruct (get_properties main_schema) as [[props wrapper]|e]; [|reflexivity].
  destruct (py_len props) as [n|e]; [|reflexivity].
  destruct (py_len performance_schema) as [m|e]; [|reflexivity].
  destruct (run_loop (now w) performance_schema props) as [st|e]; [|reflexivity].
  destruct (output_write w) as [e|]; [reflexivity|].
  unfold summary, missing_section. simpl.
  destruct (py_len (properties st)) as [total|e]; [|reflexivity].
  destruct (Nat.eqb total 0); [reflexivity|].
  destruct (count_patients st) as [patients|e]; [|reflexivity].
  destruct (missing_lines (properties st) (sorted (missing_variables st)))
    as [lines|e];
    destruct (missing_variables st) as [|v l]; try reflexivity.
  destruct r, (report_write w); reflexivity.
Qed.

(** C9. In every run where both loads, the fusion loop and the write of the
    fused document succeed and the report is attempted, the call returns
    [True] and the process ends with status 0 whether or not the report can
    be written; a failed report write shows as the warning only.  The fate
    of the report never changes the result.  A failed write of the fused
    document makes the call return [False], and a failed load makes the
    process end with status 1. *)
Theorem report_failure_not_fatal (w : World) (main_schema : json) (pd : dict)
    (props wrapper : json) (n : nat) (st : fuse_state) :
  main_file w = Loaded main_schema ->
  performance_file w = Loaded (JObj pd) ->
  NoDup (dict_keys pd) ->
  get_properties main_schema = Ok (props, wrapper) ->
  py_len props = Ok n ->
  run_loop (now w) (JObj pd) props = Ok st ->
  (output_write w = None -> missing_variables st <> [] ->
   forall r,
     let o := fuse_schemas (with_report_write r w) in
     result o = Returned true /\
     main (with_report_write r w) = 0 /\
     output_file o = Some (alias_properties wrapper (properties st)) /\
     In MsgCompleted (console o) /\
     match r with
     | Some e => In (MsgWarnReport e) (console o) /\ report_file o = None
     | None => In MsgReportSaved (console o) /\ report_file o <> None
     end) /\
  (forall r,
     result (fuse_schemas (with_report_write r w)) = result (fuse_schemas w)) /\
  (forall e, output_write w = Some e ->
     result (fuse_schemas w) = Returned false /\ main w = 1 /\
     output_file (fuse_schemas w) = None) /\
  (forall w' e,
     main_file w' = LoadFails e \/ performance_file w' = LoadFails e ->
     result (fuse_schemas w') <> Returned true /\ main w' = 1).
Proof.
  intros Hmain Hperf Hnd Hprops Hlen Hloop.
  split; [|split; [|split]].
  - intros Hout Hmiss r o. subst o.
    destruct (missing_needs_dict _ _ _ _ Hloop Hmiss) as (d0 & ->).
    pose proof (fuse_schemas_after_loop (with_report_write r w) main_schema pd
                  (JObj d0) wrapper n st Hmain Hperf Hprops Hlen Hloop) as Hrun.
    cbv zeta in Hrun. simpl output_write in Hrun. rewrite Hout in Hrun.
    unfold main. rewrite Hrun.
    match goal with
    | |- context [summary ?w' st ?printed ?doc] =>
        destruct (summary_outcome w' pd d0 st printed doc Hnd Hloop)
          as (Hdoc & [(-> & -> & _)|(_ & Hres & Hdone & Hrep)])
    end.
    + simpl in Hloop. injection Hloop as <-. now contradiction Hmiss.
    + rewrite Hres. repeat split; try assumption.
      specialize (Hrep Hmiss). simpl report_write in Hrep.
      destruct r; exact Hrep.
  - intros r. apply result_independent_of_report.
  - intros e Hout.
    pose proof (fuse_schemas_after_loop w main_schema pd props wrapper n st
                  Hmain Hperf Hprops Hlen Hloop) as Hrun.
    cbv zeta in Hrun. rewrite Hout in Hrun. unfold main. rewrite Hrun.
    repeat split.
  - intros w' e Hfail. unfold main, fuse_schemas.
    destruct (main_file w') as [main'|e'] eqn:Hmain'.
    + destruct Hfail as [Habs | Hfail]; [discriminate Habs|]. rewrite Hfail.
      destruct e; simpl; split; (discriminate || reflexivity).
    + destruct e'; simpl; split; (discriminate || reflexivity).
Qed.

Lemma report_failure_not_fatal_witness :
  main_file example_world = Loaded (JObj example_definitions) /\
  performance_file example_world = Loaded (JObj example_performance) /\
  report_write example_world = Some PermissionError /\
  result (fuse_schemas example_world) = Returned true /\
  main example_world = 0.
Proof.
  assert (Hnd : NoDup (dict_keys example_performance))
    by (simpl; nodup_strings).
  split; [reflexivity|]. split; [reflexivity|]. split; [reflexivity|].
  pose proof (report_failure_not_fatal example_world
                (JObj example_definitions) example_performance
                (JObj example_definitions)
                (JObj [("properties", JObj example_definitions)])
                1 example_state eq_refl eq_refl Hnd eq_refl eq_refl eq_refl)
    as (Hreport & _).
  assert (Hmiss : missing_variables example_state <> []) by discriminate.
  destruct (Hreport eq_refl Hmiss (Some PermissionError)) as (Hres & Hexit & _).
  split; [exact Hres | exact Hexit].
Defined.

(* ================================================================== *)
(** ** Further properties of the normaliser *)
(* ================================================================== *)

Lemma py_in_and_truthy_marks (k : string) (d : dict) :
  py_in_and_truthy k (JObj d) = Ok (marks k d).
Proof.
  unfold py_in_and_truthy, marks. simpl. unfold dict_mem.
  now destruct (dict_get k d).
Qed.

(** The inner loop appends, in the order of the mapping, the new name of
    each marked old key. *)
Lemma unmatched_loop_appends (u : dict) :
  forall pairs acc,
    NoDup (map snd pairs) ->
    (forall p, In p pairs -> dict_mem (snd p) acc = false) ->
    unmatched_loop (JObj u) pairs acc
    = Ok (acc ++ map (fun p => (snd p, JBool true))
                     (filter (fun p => marks (fst p) u) pairs)).
Proof.
  induction pairs as [|[old_key new_key] pairs IH]; intros acc Hnd Hfresh.
  - simpl. now rewrite app_nil_r.
  - simpl in Hnd. inversion Hnd as [|? ? Hnotin Hnd']; subst.
    simpl unmatched_loop. rewrite py_in_and_truthy_marks. bind_step.
    simpl filter. destruct (marks old_key u).
    + rewrite IH; try assumption.
      * rewrite (dict_set_fresh new_key (JBool true) acc).
        -- rewrite <- app_assoc. reflexivity.
        -- apply (Hfresh (old_key, new_key)). now left.
      * intros p Hp. rewrite dict_mem_set.
        rewrite (Hfresh p (or_intror Hp)), orb_false_r.
        apply String.eqb_neq. intros Heq. apply Hnotin. rewrite <- Heq.
        now apply in_map.
    + apply IH; [assumption|]. intros p Hp. apply Hfresh. now right.
Qed.

(** X1. For an annotation object that marks neither [matched] nor [blank]
    and whose [unmatched] value is an object, the flag set is exactly the new
    names of the mapping whose old key is present and true in that object, in
    the order of the mapping: [missing_docs] gives [missing_doc], the six
    other names are kept. *)
Theorem unmatched_flags_renamed (annotation unmatched_data : dict) :
  marks "matched" annotation = false ->
  marks "blank" annotation = false ->
  dict_get "unmatched" annotation = Some (JObj unmatched_data) ->
  patient_flags (JObj annotation) = Ok (renamed_flags unmatched_data).
Proof.
  intros Hm Hb Hu. unfold patient_flags.
  rewrite !py_in_and_truthy_marks, Hm. bind_step.
  rewrite Hb. bind_step.
  change (py_in "unmatched" (JObj annotation))
    with (Ok (dict_mem "unmatched" annotation)).
  bind_step. unfold dict_mem. rewrite Hu.
  rewrite (py_getitem_dict _ _ _ Hu). bind_step.
  rewrite unmatched_loop_appends.
  - reflexivity.
  - simpl. nodup_strings.
  - intros p _. reflexivity.
Qed.

Lemma unmatched_flags_renamed_witness :
  patient_flags
    (JObj [("matched", JBool false);
           ("unmatched", JObj [("questioned", JInt 0);
                               ("missing_docs", JBool true);
                               ("correction", JStr "yes")])])
  = Ok [("correction", JBool true); ("missing_doc", JBool true)].
Proof.
  exact (unmatched_flags_renamed
           [("matched", JBool false);
            ("unmatched", JObj [("questioned", JInt 0);
                                ("missing_docs", JBool true);
                                ("correction", JStr "yes")])]
           [("questioned", JInt 0); ("missing_docs", JBool true);
            ("correction", JStr "yes")]
           eq_refl eq_refl eq_refl).
Defined.

Lemma matched_gives_match (annotation : dict) :
  marks "matched" annotation = true ->
  patient_flags (JObj annotation) = Ok [("match", JBool true)].
Proof.
  intros Hm. unfold patient_flags.
  rewrite py_in_and_truthy_marks, Hm. reflexivity.
Qed.

(** X2. A subject whose annotation marks [matched] is stored with the
    single flag [match] and the timestamp, whatever else the annotation
    holds: a true [blank] or an [unmatched] sub-object beside it has no
    effect. *)
Theorem matched_takes_precedence (now : clock) (t : nat) (items : dict)
    (pid : string) (annotation converted : dict) (t' : nat) :
  NoDup (dict_keys items) ->
  In (pid, JObj annotation) items ->
  marks "matched" annotation = true ->
  convert_performance_structure now t (JObj items) = Ok (converted, t') ->
  dict_get pid converted
  = Some (JObj [("match", JBool true);
                ("last_updated", JStr (now t ++ "Z")%string)]).
Proof.
  intros Hnd Hin Hm H.
  pose proof (matched_gives_match annotation Hm) as Hflags.
  assert (Hmem : dict_mem pid converted = true).
  { apply (converted_members _ _ _ _ _ H pid).
    exists (JObj annotation), [("match", JBool true)].
    repeat split; [assumption | assumption | discriminate]. }
  unfold dict_mem in Hmem.
  destruct (dict_get pid converted) as [rec|] eqn:Hget; [|discriminate].
  destruct (converted_records _ _ _ _ _ H pid rec Hget)
    as (pdata & flags & Hin' & Hf & _ & _ & ->).
  apply (In_dict_get _ _ _ Hnd) in Hin, Hin'.
  rewrite Hin in Hin'. injection Hin' as <-.
  rewrite Hflags in Hf. injection Hf as <-. reflexivity.
Qed.

Lemma matched_takes_precedence_witness :
  NoDup (dict_keys blank_annotations) /\
  dict_get "p3" blank_annotations
    = Some (JObj [("matched", JBool true); ("blank", JBool true)]) /\
  dict_get "p3" blank_converted
    = Some (JObj [("match", JBool true);
                  ("last_updated", JStr (example_clock 0 ++ "Z")%string)]).
Proof.
  assert (Hnd : NoDup (dict_keys blank_annotations)) by (simpl; nodup_strings).
  split; [exact Hnd|]. split; [reflexivity|].
  apply (matched_takes_precedence example_clock 0 blank_annotations "p3"
           [("matched", JBool true); ("blank", JBool true)]
           blank_converted 1 Hnd).
  - simpl. right. right. left. reflexivity.
  - reflexivity.
  - reflexivity.
Defined.

Lemma included_flags (pid : string) (a : json) (flags : dict) :
  patient_flags a = Ok flags -> included (pid, a) = dict_truthy flags.
Proof.
  intros H. unfold included. simpl. rewrite H. now destruct flags.
Qed.

Lemma convert_loop_keys (ts : string) :
  forall items acc converted,
    NoDup (dict_keys items) ->
    (forall k, In k (dict_keys items) -> dict_mem k acc = false) ->
    convert_loop ts items acc = Ok converted ->
    dict_keys converted = dict_keys acc ++ dict_keys (filter included items).
Proof.
  induction items as [|[pid a] items IH]; intros acc converted Hnd Hfresh H.
  - simpl in H. injection H as <-. simpl. now rewrite app_nil_r.
  - simpl in Hnd. inversion Hnd as [|? ? Hnotin Hnd']; subst.
    simpl in H. bind_inv_as H flags Hflags.
    simpl filter. rewrite (included_flags pid a flags Hflags).
    destruct (dict_truthy flags).
    + apply IH in H; try assumption.
      * rewrite H. rewrite dict_set_fresh by (apply Hfresh; now left).
        unfold dict_keys. rewrite map_app. simpl.
        now rewrite <- app_assoc.
      * intros k Hk. rewrite dict_mem_set.
        rewrite (Hfresh k (or_intror Hk)), orb_false_r.
        apply String.eqb_neq. intros ->. now apply Hnotin.
    + apply IH in H; try assumption.
      intros k Hk. apply Hfresh. now right.
Qed.

(** X3. The normalised record lists the kept subjects in the order of the
    raw record: its keys are the keys of the raw entries whose flag set is
    not empty, in the same order, so it never holds more subjects than the
    raw record and never a subject the raw record lacks. *)
Theorem normalized_keeps_order (now : clock) (t : nat)
    (items converted : dict) (t' : nat) :
  NoDup (dict_keys items) ->
  convert_performance_structure now t (JObj items) = Ok (converted, t') ->
  dict_keys converted = dict_keys (filter included items) /\
  length converted <= length items /\
  incl (dict_keys converted) (dict_keys items).
Proof.
  intros Hnd H.
  destruct (convert_performance_structure_Ok _ _ _ _ _ H)
    as (items' & [= <-] & _ & Hloop).
  assert (Hkeys : dict_keys converted = dict_keys (filter included items)).
  { apply (convert_loop_keys (now t ++ "Z")%string items [] converted Hnd);
      [|exact Hloop].
    reflexivity. }
  split; [exact Hkeys|]. split.
  - rewrite <- (length_map fst converted). fold (dict_keys converted).
    rewrite Hkeys. unfold dict_keys. rewrite length_map.
    apply filter_length_le.
  - rewrite Hkeys. intros k Hk. unfold dict_keys in *.
    apply in_map_iff in Hk. destruct Hk as (kv & <- & Hk).
    apply filter_In in Hk. now apply in_map.
Qed.

Lemma normalized_keeps_order_witness :
  NoDup (dict_keys blank_annotations) /\
  dict_keys blank_converted = ["p2"; "p3"].
Proof.
  assert (Hnd : NoDup (dict_keys blank_annotations)) by (simpl; nodup_strings).
  split; [exact Hnd|].
  exact (proj1 (normalized_keeps_order example_clock 0 blank_annotations
                  blank_converted 1 Hnd eq_refl)).
Defined.

Lemma bind_Raise {A B : Type} (c : res A) (f : A -> res B) (e : exn) :
  bind c f = Raise e -> c = Raise e \/ exists a, c = Ok a /\ f a = Raise e.
Proof.
  destruct c as [a|e']; simpl.
  - intros H. right. now exists a.
  - intros [= ->]. now left.
Qed.

Lemma py_in_and_truthy_raises (k : string) (j : json) (e : exn) :
  py_in_and_truthy k j = Raise e -> e = TypeError.
Proof.
  unfold py_in_and_truthy.
  destruct j as [| b | z | m x | s | l | d]; simpl;
    try (now intros [= <-]).
  - destruct (is_substring k s); simpl; [now intros [= <-] | discriminate].
  - destruct (existsb (json_is_str k) l); simpl;
      [now intros [= <-] | discriminate].
  - unfold dict_mem. destruct (dict_get k d); simpl; discriminate.
Qed.

Lemma unmatched_loop_raises (unmatched_data : json) (e : exn) :
  forall pairs acc,
    unmatched_loop unmatched_data pairs acc = Raise e -> e = TypeError.
Proof.
  induction pairs as [|[old_key new_key] pairs IH]; intros acc; simpl.
  - discriminate.
  - intros H. apply bind_Raise in H. destruct H as [H|(b & _ & H)].
    + now apply py_in_and_truthy_raises in H.
    + now apply IH in H.
Qed.

Lemma py_getitem_raises_after_in (j : json) (k : string) (e : exn) :
  py_in k j = Ok true -> py_getitem j k = Raise e -> e = TypeError.
Proof.
  destruct j as [| b | z | m x | s | l | d]; simpl;
    try discriminate; try (now intros _ [= <-]).
  unfold dict_mem. destruct (dict_get k d); discriminate.
Qed.

Lemma patient_flags_raises (patient_data : json) (e : exn) :
  patient_flags patient_data = Raise e -> e = TypeError.
Proof.
  unfold patient_flags. intros H.
  apply bind_Raise in H. destruct H as [H|([|] & _ & H)];
    [now apply py_in_and_truthy_raises in H | discriminate |].
  apply bind_Raise in H. destruct H as [H|([|] & _ & H)];
    [now apply py_in_and_truthy_raises in H | discriminate |].
  apply bind_Raise in H. destruct H as [H|([|] & Hin & H)].
  - destruct patient_data; simpl in H; try discriminate; now injection H as <-.
  - apply bind_Raise in H. destruct H as [H|(u & _ & H)].
    + now apply py_getitem_raises_after_in in H.
    + now apply unmatched_loop_raises in H.
  - discriminate.
Qed.

Lemma convert_loop_raises (ts : string) (e : exn) :
  forall items acc, convert_loop ts items acc = Raise e -> e = TypeError.
Proof.
  induction items as [|[pid a] items IH]; intros acc; simpl.
  - discriminate.
  - intros H. apply bind_Raise in H. destruct H as [H|(flags & _ & H)].
    + now apply patient_flags_raises in H.
    + now apply IH in H.
Qed.

Lemma patient_flags_scalar (a : json) :
  is_scalar a = true -> patient_flags a = Raise TypeError.
Proof. destruct a; try discriminate; reflexivity. Qed.

Lemma convert_loop_scalar (ts : string) (pid : string) (a : json) :
  is_scalar a = true ->
  forall items acc,
    In (pid, a) items -> convert_loop ts items acc = Raise TypeError.
Proof.
  intros Hs. induction items as [|[pid' a'] items IH]; intros acc Hin.
  - contradiction.
  - simpl. destruct (patient_flags a') as [flags|e] eqn:Hflags.
    + bind_step. destruct Hin as [Heq|Hin].
      * injection Heq as -> ->.
        rewrite (patient_flags_scalar a Hs) in Hflags. discriminate.
      * now apply IH.
    + simpl. now rewrite (patient_flags_raises _ _ Hflags).
Qed.

(** X4. The normaliser raises nothing but [AttributeError], when the
    record is not an object, and [TypeError], when an annotation cannot be
    probed: never a [KeyError].  A record that is not an object always
    raises [AttributeError]; a record holding a null, boolean or numeric
    annotation always raises [TypeError], so that one such subject makes the
    whole record fail. *)
Theorem normalizer_exceptions (now : clock) (t : nat)
    (performance_data : json) :
  (forall e,
     convert_performance_structure now t performance_data = Raise e ->
     (e = AttributeError /\ is_object performance_data = false) \/
     (e = TypeError /\ is_object performance_data = true)) /\
  (is_object performance_data = false ->
   convert_performance_structure now t performance_data
   = Raise AttributeError) /\
  (forall items pid a,
     performance_data = JObj items ->
     In (pid, a) items -> is_scalar a = true ->
     convert_performance_structure now t performance_data = Raise TypeError).
Proof.
  unfold convert_performance_structure, convert_with_timestamp.
  split; [|split].
  - intros e H.
    destruct performance_data as [| b | z | m x | s | l | items];
      simpl in H; try (injection H as <-; now left).
    right. split; [|reflexivity].
    destruct (convert_loop (now t ++ "Z")%string items []) as [c|e'] eqn:Hloop;
      simpl in H; [discriminate|].
    injection H as <-. now apply convert_loop_raises in Hloop.
  - destruct performance_data; try discriminate; reflexivity.
  - intros items pid a -> Hin Hs. simpl.
    now rewrite (convert_loop_scalar _ pid a Hs items [] Hin).
Qed.

Lemma normalizer_exceptions_witness :
  convert_performance_structure example_clock 0
    (JObj [("p1", JObj [("matched", JBool true)]); ("p2", JNull)])
  = Raise TypeError.
Proof.
  apply (proj2 (proj2 (normalizer_exceptions example_clock 0
                         (JObj [("p1", JObj [("matched", JBool true)]);
                                ("p2", JNull)])))
           [("p1", JObj [("matched", JBool true)]); ("p2", JNull)]
           "p2" JNull eq_refl).
  - simpl. right. left. reflexivity.
  - reflexivity.
Defined.

(* ================================================================== *)
(** ** Further properties of the fusion loop *)
(* ================================================================== *)

(** X5. An existing variable whose raw entry has a [performance]
    sub-object keeps every other field of its definition; its [performance]
    field, whether it had one or not, becomes the normalised record of the
    raw one, and the variable is listed in [variables_with_performance] and
    not in [missing_variables]. *)
Theorem existing_definition_keeps_fields (now : clock) (pd d0 : dict)
    (st : fuse_state) (v : string) (entry performance_data definition : json) :
  NoDup (dict_keys pd) ->
  run_loop now (JObj pd) (JObj d0) = Ok st ->
  dict_get v pd = Some entry ->
  py_getitem entry "performance" = Ok performance_data ->
  dict_get v d0 = Some definition ->
  exists fields converted t,
    definition = JObj fields /\
    convert_performance_structure now t performance_data
      = Ok (converted, S t) /\
    py_getitem (properties st) v
      = Ok (JObj (dict_set "performance" (JObj converted) fields)) /\
    (forall field, field <> "performance" ->
       dict_get field (dict_set "performance" (JObj converted) fields)
       = dict_get field fields) /\
    In v (variables_with_performance st) /\
    ~ In v (missing_variables st).
Proof.
  intros Hnd H Hentry Hperf Hdef. apply run_loop_Ok in H.
  destruct (fuse_loop_final_value now pd _ (initial_state (JObj d0)) d0 st
              Hnd eq_refl H) as (d' & Hd' & Hval).
  destruct (fuse_loop_counts now pd _ (initial_state (JObj d0)) d0 st
              Hnd eq_refl H) as (d'' & _ & _ & Hm & _ & Hw & _).
  simpl in Hm, Hw.
  pose proof (dict_get_keys _ _ _ Hentry) as Hin.
  assert (Hmem : dict_mem v d0 = true) by (unfold dict_mem; now rewrite Hdef).
  assert (Hhas : py_in "performance" entry = Ok true).
  { apply py_getitem_Ok in Hperf. destruct Hperf as (fields & -> & Hget).
    simpl. unfold dict_mem. now rewrite Hget. }
  destruct (Hval v Hin) as (entry' & Hentry' & Hcase).
  rewrite Hentry in Hentry'. injection Hentry' as <-.
  destruct Hcase as [(_ & Hp & _)
                    |[(_ & _ & pdat & conv & fields & t & Hpd & Hc & Hd0 & Hget)
                    |[(Hmem' & _)
                    |(Hmem' & _)]]]; try congruence.
  rewrite Hperf in Hpd. injection Hpd as <-.
  rewrite Hdef in Hd0. injection Hd0 as ->.
  exists fields, conv, t. split; [reflexivity|]. split; [exact Hc|].
  split; [rewrite Hd'; now apply py_getitem_dict|]. split.
  - intros field Hfield. now apply dict_get_set_other.
  - rewrite Hw, Hm. split.
    + apply filter_In. split; [exact Hin|].
      unfold has_performance. rewrite Hentry, Hhas. apply orb_true_r.
    + intros Hv. apply filter_In in Hv. destruct Hv as [_ Hv].
      unfold absent in Hv. rewrite Hmem in Hv. discriminate.
Qed.

Lemma existing_definition_keeps_fields_witness :
  NoDup (dict_keys example_performance) /\
  dict_get "age" example_definitions
    = Some (JObj [("description", JStr "Age in years")]) /\
  In "age" (variables_with_performance example_state) /\
  ~ In "age" (missing_variables example_state).
Proof.
  assert (Hnd : NoDup (dict_keys example_performance))
    by (simpl; nodup_strings).
  split; [exact Hnd|]. split; [reflexivity|].
  destruct (existing_definition_keeps_fields example_clock example_performance
              example_definitions example_state "age"
              (JObj [("performance",
                      JObj [("p1", JObj [("matched", JBool true)])])])
              (JObj [("p1", JObj [("matched", JBool true)])])
              (JObj [("description", JStr "Age in years")])
              Hnd eq_refl eq_refl eq_refl eq_refl)
    as (fields & converted & t & _ & _ & _ & _ & Hin & Hnot).
  split; [exact Hin | exact Hnot].
Defined.

(** X6. The fused variable map keeps the variables of the definition schema
    in their order and appends the placeholders after them, in the order of
    the dataset; a variable the dataset does not name keeps its definition
    unchanged, and no variable is ever removed. *)
Theorem fused_map_order (now : clock) (pd d0 : dict) (st : fuse_state) :
  NoDup (dict_keys pd) ->
  run_loop now (JObj pd) (JObj d0) = Ok st ->
  exists d',
    properties st = JObj d' /\
    dict_keys d' = dict_keys d0 ++ missing_variables st /\
    missing_variables st = filter (absent d0) (dict_keys pd) /\
    (forall k, ~ In k (dict_keys pd) -> dict_get k d' = dict_get k d0) /\
    (forall k, dict_mem k d0 = true -> dict_mem k d' = true).
Proof.
  intros Hnd H. apply run_loop_Ok in H.
  destruct (fuse_loop_counts now pd _ (initial_state (JObj d0)) d0 st
              Hnd eq_refl H) as (d' & Hd' & Hk & Hm & _).
  destruct (fuse_loop_frame now pd _ (initial_state (JObj d0)) d0 st
              eq_refl H) as (d'' & Hd'' & Hframe).
  rewrite Hd' in Hd''. injection Hd'' as <-. simpl in Hm.
  exists d'. split; [exact Hd'|]. rewrite Hm. split; [exact Hk|].
  split; [reflexivity|]. split; [exact Hframe|].
  intros k Hmem. apply dict_mem_In. rewrite Hk. apply in_or_app. left.
  now apply dict_mem_In.
Qed.

Lemma fused_map_order_witness :
  NoDup (dict_keys example_performance) /\
  exists d',
    properties example_state = JObj d' /\ dict_keys d' = ["age"; "weight"].
Proof.
  assert (Hnd : NoDup (dict_keys example_performance))
    by (simpl; nodup_strings).
  split; [exact Hnd|].
  destruct (fused_map_order example_clock example_performance
              example_definitions example_state Hnd eq_refl)
    as (d' & Hd' & Hk & _).
  exists d'. split; [exact Hd'|]. rewrite Hk. reflexivity.
Defined.

(* ================================================================== *)
(** ** Further properties of the whole run *)
(* ================================================================== *)

Lemma summary_output_file (w : World) (st : fuse_state)
    (printed : list message) (doc : json) :
  output_file (summary w st printed doc) = Some doc.
Proof.
  unfold summary, missing_section.
  destruct (py_len (properties st)) as [total|e]; [|reflexivity].
  destruct (Nat.eqb total 0); [reflexivity|].
  destruct (count_patients st) as [patients|e]; [|reflexivity].
  destruct (missing_lines (properties st) (sorted (missing_variables st)))
    as [lines|e];
    destruct (missing_variables st) as [|v l]; try reflexivity.
  destruct (report_write w); reflexivity.
Qed.


(** X7. The document written keeps the wrapper of the main schema: when
    the schema has a top-level [properties] key, the output has the same
    top-level keys in the same order, the same value under every key but
    [properties], and the fused variable map under [properties]; when it has
    none, the output is an object with the single key [properties] holding
    the fused map.  This is so even when the summary fails afterwards. *)
Theorem output_keeps_wrapper (w : World) (main_schema : json) (pd : dict)
    (props wrapper : json) (n : nat) (st : fuse_state) :
  main_file w = Loaded main_schema ->
  performance_file w = Loaded (JObj pd) ->
  get_properties main_schema = Ok (props, wrapper) ->
  py_len props = Ok n ->
  run_loop (now w) (JObj pd) props = Ok st ->
  output_write w = None ->
  exists doc,
    output_file (fuse_schemas w) = Some doc /\
    py_getitem doc "properties" = Ok (properties st) /\
    (py_in "properties" main_schema = Ok true ->
       py_keys doc = py_keys main_schema /\
       forall k, k <> "properties" ->
         py_getitem doc k = py_getitem main_schema k) /\
    (py_in "properties" main_schema = Ok false ->
       doc = JObj [("properties", properties st)]).
Proof.
  intros Hmain Hperf Hprops Hlen Hloop Hout.
  rewrite (fuse_schemas_after_loop w main_schema pd props wrapper n st
             Hmain Hperf Hprops Hlen Hloop).
  cbv zeta. rewrite Hout, summary_output_file.
  exists (alias_properties wrapper (properties st)). split; [reflexivity|].
  unfold get_properties in Hprops. bind_inv_as Hprops wrapped Hin.
  rewrite Hin. destruct wrapped.
  - bind_inv_as Hprops p Hget. injection Hprops as <- <-.
    apply py_getitem_Ok in Hget. destruct Hget as (d & -> & Hget).
    assert (Hmem : dict_mem "properties" d = true)
      by (unfold dict_mem; now rewrite Hget).
    pose proof (dict_keys_set_known "properties" (properties st) d Hmem) as Hk.
    simpl. rewrite dict_get_set_same. split; [reflexivity|]. split.
    + intros _. split.
      * unfold py_keys. simpl. now rewrite Hk.
      * intros k Hne. now rewrite dict_get_set_other.
    + discriminate.
  - injection Hprops as <- <-. simpl. split; [reflexivity|].
    split; [discriminate | reflexivity].
Qed.

Lemma output_keeps_wrapper_witness :
  exists doc,
    output_file (fuse_schemas example_world) = Some doc /\
    py_getitem doc "properties" = Ok (properties example_state) /\
    doc = JObj [("properties", properties example_state)].
Proof.
  destruct (output_keeps_wrapper example_world (JObj example_definitions)
              example_performance (JObj example_definitions)
              (JObj [("properties", JObj example_definitions)]) 1
              example_state eq_refl eq_refl eq_refl eq_refl eq_refl eq_refl)
    as (doc & Hdoc & Hprops & _ & Hbare).
  exists doc. split; [exact Hdoc|]. split; [exact Hprops|].
  apply Hbare. reflexivity.
Defined.


(** X9. A performance document that is not a JSON object stops the run
    with an uncaught exception before anything is written: [TypeError] from
    [len] for null, a boolean or a number, [AttributeError] from [.keys()]
    for an array or a string.  The process ends with status 1. *)
Theorem non_object_dataset_raises (w : World) (main_schema perf : json)
    (props wrapper : json) (n : nat) :
  main_file w = Loaded main_schema ->
  performance_file w = Loaded perf ->
  get_properties main_schema = Ok (props, wrapper) ->
  py_len props = Ok n ->
  is_object perf = false ->
  result (fuse_schemas w)
    = Uncaught (if is_scalar perf then TypeError else AttributeError) /\
  output_file (fuse_schemas w) = None /\
  report_file (fuse_schemas w) = None /\
  main w = 1.
Proof.
  intros Hmain Hperf Hprops Hlen Hobj. unfold main, fuse_schemas.
  rewrite Hmain, Hperf, Hprops, Hlen.
  destruct perf as [| b | z | m x | s | l | d]; try discriminate;
    simpl; repeat split.
Qed.

Lemma non_object_dataset_raises_witness :
  result (fuse_schemas array_world) = Uncaught AttributeError /\
  output_file (fuse_schemas array_world) = None /\
  report_file (fuse_schemas array_world) = None /\
  main array_world = 1.
Proof.
  exact (non_object_dataset_raises array_world (JObj example_definitions)
           (JArr []) (JObj example_definitions)
           (JObj [("properties", JObj example_definitions)]) 1
           eq_refl eq_refl eq_refl eq_refl eq_refl).
Defined.


(* ================================================================== *)
(** ** The missing-variables report *)
(* ================================================================== *)

Lemma insert_sorted_perm (s : string) (l : list string) :
  Permutation (s :: l) (insert_sorted s l).
Proof.
  induction l as [|x l IH]; simpl; [apply Permutation_refl|].
  destruct (String.leb s x); [apply Permutation_refl|].
  apply perm_trans with (x :: s :: l); [apply perm_swap|].
  now apply perm_skip.
Qed.

Lemma sorted_perm (l : list string) : Permutation l (sorted l).
Proof.
  induction l as [|x l IH]; simpl; [apply perm_nil|].
  apply perm_trans with (x :: sorted l); [now apply perm_skip|].
  apply insert_sorted_perm.
Qed.

Lemma insert_sorted_Sorted (s : string) (l : list string) :
  Sorted string_le l -> Sorted string_le (insert_sorted s l).
Proof.
  induction l as [|x l IH]; simpl; intros Hs.
  - repeat constructor.
  - destruct (String.leb s x) eqn:Hle.
    + constructor; [exact Hs|]. constructor. exact Hle.
    + inversion Hs as [|? ? Hs' Hhd]; subst.
      constructor; [now apply IH|].
      assert (Hxs : string_le x s).
      { destruct (String.leb_total s x) as [H|H]; [congruence | exact H]. }
      destruct l as [|y l]; simpl.
      * constructor. exact Hxs.
      * destruct (String.leb s y); constructor; [exact Hxs|].
        now inversion Hhd.
Qed.

Lemma sorted_Sorted (l : list string) : Sorted string_le (sorted l).
Proof.
  induction l as [|x l IH]; simpl; [constructor|].
  now apply insert_sorted_Sorted.
Qed.

Lemma missing_lines_names (props : json) :
  forall names lines,
    missing_lines props names = Ok lines ->
    map fst lines = names /\
    forall v n, In (v, n) lines -> patient_count props v = Ok n.
Proof.
  induction names as [|v names IH]; simpl; intros lines H.
  - injection H as <-. split; [reflexivity | intros ? ? []].
  - bind_inv_as H n Hn. bind_inv_as H rest Hrest. injection H as <-.
    destruct (IH rest Hrest) as [Hnames Hcounts]. simpl. split.
    + now rewrite Hnames.
    + intros v' n' [[= <- <-]|Hin]; [exact Hn | now apply Hcounts].
Qed.

Lemma patient_count_performance_keys (d : dict) (v : string) :
  reportable d v ->
  patient_count (JObj d) v = Ok (length (performance_keys d v)).
Proof.
  intros (definition & Hget & Hperf).
  unfold patient_count, performance_keys.
  rewrite (py_getitem_dict _ _ _ Hget), Hget. bind_step.
  change (py_in "performance" (JObj definition))
    with (Ok (dict_mem "performance" definition)).
  bind_step. unfold dict_mem.
  destruct Hperf as [Hnone|(record & Hsome)].
  - now rewrite Hnone.
  - rewrite Hsome, (py_getitem_dict _ _ _ Hsome). bind_step. simpl.
    unfold dict_keys. now rewrite length_map.
Qed.

Lemma summary_report (w : World) (st : fuse_state) (printed : list message)
    (doc : json) (r : report) :
  report_file (summary w st printed doc) = Some r ->
  exists lines,
    missing_lines (properties st) (sorted (missing_variables st)) = Ok lines /\
    r = mkReport (now w (ticks st)) (length (missing_variables st)) lines.
Proof.
  unfold summary, missing_section.
  destruct (py_len (properties st)) as [total|e]; [|discriminate].
  destruct (Nat.eqb total 0); [discriminate|].
  destruct (count_patients st) as [patients|e]; [|discriminate].
  destruct (missing_lines (properties st) (sorted (missing_variables st)))
    as [lines|e];
    destruct (missing_variables st) as [|v l]; try discriminate.
  destruct (report_write w); [discriminate|].
  simpl. intros [= <-]. now exists lines.
Qed.

(** X10. When the report file is written, it counts the placeholders
    created ([created_count]) and lists every missing variable exactly once,
    in ascending order of name, each with the number of subjects of the
    record attached to its placeholder (zero when none is attached). *)
Theorem report_lists_missing_sorted (w : World) (main_schema : json)
    (pd d0 : dict) (wrapper : json) (st : fuse_state) (r : report) :
  main_file w = Loaded main_schema ->
  performance_file w = Loaded (JObj pd) ->
  NoDup (dict_keys pd) ->
  get_properties main_schema = Ok (JObj d0, wrapper) ->
  run_loop (now w) (JObj pd) (JObj d0) = Ok st ->
  report_file (fuse_schemas w) = Some r ->
  total_missing r = created_count st /\
  map fst (listed r) = sorted (missing_variables st) /\
  Sorted string_le (map fst (listed r)) /\
  Permutation (missing_variables st) (map fst (listed r)) /\
  NoDup (map fst (listed r)) /\
  exists d',
    properties st = JObj d' /\
    forall v n, In (v, n) (listed r) -> n = length (performance_keys d' v).
Proof.
  intros Hmain Hperf Hnd Hprops Hloop Hrep.
  rewrite (fuse_schemas_after_loop w main_schema pd (JObj d0) wrapper
             (length d0) st Hmain Hperf Hprops eq_refl Hloop) in Hrep.
  cbv zeta in Hrep.
  destruct (output_write w) as [e|]; [discriminate|].
  apply summary_report in Hrep. destruct Hrep as (lines & Hlines & ->).
  simpl.
  destruct (missing_lines_names _ _ _ Hlines) as [Hnames Hcounts].
  destruct (recorded_reportable _ _ _ _ Hnd Hloop) as (d' & Hd' & Hreportable).
  pose proof Hloop as Hloop'. apply run_loop_Ok in Hloop'.
  destruct (fuse_loop_counts (now w) pd _ (initial_state (JObj d0)) d0 st
              Hnd eq_refl Hloop') as (d'' & _ & _ & Hm & Hc & _).
  simpl in Hm, Hc.
  split; [now rewrite Hc, Hm|]. split; [exact Hnames|].
  rewrite Hnames. split; [apply sorted_Sorted|].
  split; [apply sorted_perm|]. split.
  - apply (Permutation_NoDup (sorted_perm _)). rewrite Hm.
    now apply NoDup_filter.
  - exists d'. split; [exact Hd'|]. intros v n Hin.
    pose proof (Hcounts v n Hin) as Hcount. rewrite Hd' in Hcount.
    rewrite patient_count_performance_keys in Hcount.
    + now injection Hcount as <-.
    + apply Hreportable. right. apply In_sorted. rewrite <- Hnames.
      change v with (fst (v, n)). now apply in_map.
Qed.

Lemma report_lists_missing_sorted_witness :
  NoDup (dict_keys example_performance) /\
  report_file (fuse_schemas writable_world)
    = Some (mkReport "2025-01-01T12:00:00.000003" 1 [("weight", 1)]) /\
  total_missing (mkReport "2025-01-01T12:00:00.000003" 1 [("weight", 1)])
    = created_count example_state.
Proof.
  assert (Hnd : NoDup (dict_keys example_performance))
    by (simpl; nodup_strings).
  split; [exact Hnd|]. split; [reflexivity|].
  exact (proj1 (report_lists_missing_sorted writable_world
                  (JObj example_definitions) example_performance
                  example_definitions
                  (JObj [("properties", JObj example_definitions)])
                  example_state
                  (mkReport "2025-01-01T12:00:00.000003" 1 [("weight", 1)])
                  eq_refl eq_refl Hnd eq_refl eq_refl eq_refl)).
Defined.

(* ================================================================== *)
(** ** Fusing into the result of a fusion *)
(* ================================================================== *)

Lemma convert_loop_returns_again (ts ts' : string) :
  forall items acc acc' converted,
    convert_loop ts items acc = Ok converted ->
    exists converted', convert_loop ts' items acc' = Ok converted'.
Proof.
  induction items as [|[pid a] items IH]; intros acc acc' converted H.
  - simpl. now eexists.
  - simpl in H. bind_inv_as H flags Hflags.
    simpl. rewrite Hflags. bind_step. eapply IH. exact H.
Qed.

(** Whether a record can be normalised does not depend on the clock. *)
Lemma convert_returns_again (now now' : clock) (t t' : nat)
    (performance_data : json) (converted : dict) (t1 : nat) :
  convert_performance_structure now t performance_data = Ok (converted, t1) ->
  exists converted',
    convert_performance_structure now' t' performance_data
    = Ok (converted', S t').
Proof.
  intros H. apply convert_performance_structure_Ok in H.
  destruct H as (items & -> & _ & Hloop).
  unfold convert_performance_structure, convert_with_timestamp. simpl.
  destruct (convert_loop_returns_again _ (now' t' ++ "Z")%string
              items [] [] converted Hloop) as (converted' & ->).
  simpl. now eexists.
Qed.

Lemma fuse_step_returns_if (now : clock) (pd : dict) (v : string)
    (st : fuse_state) (d : dict) :
  properties st = JObj d ->
  step_ok now pd v d ->
  exists st', fuse_step now (JObj pd) v st = Ok st'.
Proof.
  intros Hd (entry & has_perf & Hentry & Hhas & Hperf).
  unfold fuse_step. rewrite Hd.
  change (py_in v (JObj d)) with (Ok (dict_mem v d)). bind_step.
  rewrite (py_getitem_dict _ _ _ Hentry). bind_step.
  rewrite Hhas. bind_step.
  destruct has_perf.
  - destruct (Hperf eq_refl) as (pdat & Hpdat & Hconv & Hdef).
    rewrite Hpdat. bind_step.
    destruct (Hconv (ticks st)) as (converted & ->). bind_step.
    destruct (dict_mem v d) eqn:Hmem.
    + destruct (Hdef eq_refl) as (fields & Hget).
      rewrite (py_getitem_dict _ _ _ Hget). bind_step. simpl. now eexists.
    + simpl. now eexists.
  - destruct (dict_mem v d); simpl; now eexists.
Qed.

Lemma fuse_loop_returns_if (now : clock) (pd : dict) :
  forall keys st d,
    NoDup keys ->
    properties st = JObj d ->
    (forall v, In v keys -> step_ok now pd v d) ->
    exists st', fuse_loop now (JObj pd) keys st = Ok st'.
Proof.
  induction keys as [|v keys IH]; intros st d Hnd Hd Hok; simpl.
  - now eexists.
  - inversion Hnd as [|? ? Hnotin Hnd']; subst.
    destruct (fuse_step_returns_if now pd v st d Hd (Hok v (or_introl eq_refl)))
      as (st1 & Hstep).
    rewrite Hstep. bind_step.
    pose proof (fuse_step_spec _ _ _ _ _ _ Hd Hstep) as Hspec.
    destruct (step_spec_frame _ _ _ _ _ _ Hd Hspec) as (d1 & Hd1 & Hframe).
    apply (IH st1 d1 Hnd' Hd1).
    intros k Hk.
    assert (Hne : k <> v) by (intros ->; contradiction).
    destruct (Hok k (or_intror Hk)) as (entry & hp & He & Hp & Hperf).
    exists entry, hp. split; [exact He|]. split; [exact Hp|].
    intros Hhp. destruct (Hperf Hhp) as (pdat & Hpdat & Hconv & Hdef).
    exists pdat. split; [exact Hpdat|]. split; [exact Hconv|].
    unfold dict_mem. rewrite (Hframe k Hne). exact Hdef.
Qed.

Lemma filter_none {A : Type} (f : A -> bool) (l : list A) :
  (forall x, In x l -> f x = false) -> filter f l = [].
Proof.
  induction l as [|x l IH]; intros H; simpl; [reflexivity|].
  rewrite (H x (or_introl eq_refl)). apply IH. intros y Hy. apply H. now right.
Qed.

(** X11. The result of a fusion can always be fused again with the same
    dataset, at any later time: the second run ends normally, creates no
    placeholder, reports no missing variable, keeps the variables and their
    order, and counts as fused every dataset key whose raw entry has a
    [performance] sub-object. *)
Theorem second_run_creates_nothing (now now' : clock) (pd d0 d' : dict)
    (st : fuse_state) :
  NoDup (dict_keys pd) ->
  run_loop now (JObj pd) (JObj d0) = Ok st ->
  properties st = JObj d' ->
  exists st2 d'',
    run_loop now' (JObj pd) (JObj d') = Ok st2 /\
    properties st2 = JObj d'' /\
    created_count st2 = 0 /\
    missing_variables st2 = [] /\
    dict_keys d'' = dict_keys d' /\
    fused_count st2 = length (filter (has_performance pd) (dict_keys pd)) /\
    variables_with_performance st2
      = filter (has_performance pd) (dict_keys pd).
Proof.
  intros Hnd H Hd'. apply run_loop_Ok in H.
  destruct (fuse_loop_final_value now pd _ (initial_state (JObj d0)) d0 st
              Hnd eq_refl H) as (d1 & Hd1 & Hval).
  destruct (fuse_loop_counts now pd _ (initial_state (JObj d0)) d0 st
              Hnd eq_refl H) as (d2 & Hd2 & Hk & _).
  rewrite Hd' in Hd1, Hd2. injection Hd1 as <-. injection Hd2 as <-.
  assert (Hknown : forall k, In k (dict_keys pd) -> dict_mem k d' = true).
  { intros k Hin. apply dict_mem_In. rewrite Hk.
    destruct (dict_mem k d0) eqn:Hmem.
    - apply in_or_app. left. now apply dict_mem_In.
    - apply in_or_app. right. apply filter_In. split; [exact Hin|].
      unfold absent. now rewrite Hmem. }
  assert (Hok : forall v, In v (dict_keys pd) -> step_ok now' pd v d').
  { intros v Hin. destruct (Hval v Hin) as (entry & Hentry & Hcase).
    destruct Hcase as [(_ & Hp & _)
                      |[(_ & Hp & pdat & conv & def & t & Hpd & Hc & _ & Hget)
                      |[(_ & Hp & _)
                      |(_ & Hp & pdat & conv & fields & t & Hpd & Hc & _ & Hget)]]].
    - exists entry, false. repeat split; try assumption. discriminate.
    - exists entry, true. repeat split; try assumption. intros _.
      exists pdat. split; [exact Hpd|]. split.
      + intros t0. now apply (convert_returns_again _ _ _ _ _ _ _ Hc).
      + intros _. eexists. exact Hget.
    - exists entry, false. repeat split; try assumption. discriminate.
    - exists entry, true. repeat split; try assumption. intros _.
      exists pdat. split; [exact Hpd|]. split.
      + intros t0. now apply (convert_returns_again _ _ _ _ _ _ _ Hc).
      + intros _. eexists. exact Hget. }
  destruct (fuse_loop_returns_if now' pd (dict_keys pd)
              (initial_state (JObj d')) d' Hnd eq_refl Hok) as (st2 & Hrun).
  destruct (fuse_loop_counts now' pd _ (initial_state (JObj d')) d' st2
              Hnd eq_refl Hrun) as (d'' & Hd'' & Hk2 & Hm2 & Hc2 & Hw2 & Hf2 & _).
  simpl in Hm2, Hc2, Hw2, Hf2.
  assert (Hnone : filter (absent d') (dict_keys pd) = []).
  { apply filter_none. intros k Hin. unfold absent.
    now rewrite (Hknown k Hin). }
  assert (Hall : forall f : string -> bool,
            filter (fun k => dict_mem k d' && f k)%bool (dict_keys pd)
            = filter f (dict_keys pd)).
  { intros f. apply filter_ext_in. intros k Hin. now rewrite (Hknown k Hin). }
  assert (Hor : filter (fun k => absent d' k || has_performance pd k)%bool
                  (dict_keys pd)
                = filter (has_performance pd) (dict_keys pd)).
  { apply filter_ext_in. intros k Hin. unfold absent.
    now rewrite (Hknown k Hin). }
  rewrite Hnone in Hk2, Hm2, Hc2. rewrite app_nil_r in Hk2.
  rewrite Hall in Hf2. rewrite Hor in Hw2.
  exists st2, d''. repeat split; assumption.
Qed.

Lemma second_run_creates_nothing_witness :
  NoDup (dict_keys example_performance) /\
  run_loop example_clock (JObj example_performance) (properties example_state)
    = Ok example_rerun_state /\
  exists st2,
    run_loop example_clock (JObj example_performance)
      (properties example_state) = Ok st2 /\
    created_count st2 = 0 /\ missing_variables st2 = [].
Proof.
  assert (Hnd : NoDup (dict_keys example_performance))
    by (simpl; nodup_strings).
  split; [exact Hnd|]. split; [reflexivity|].
  destruct (second_run_creates_nothing example_clock example_clock
              example_performance example_definitions _ example_state
              Hnd eq_refl eq_refl)
    as (st2 & d'' & Hrun & _ & Hc & Hm & _).
  exists st2. repeat split; assumption.
Defined.

(* ================================================================== *)
(** ** What the statistics list *)
(* ================================================================== *)

(** X12. [variables_with_performance] lists, in the order of the dataset
    and without repetition, exactly the dataset keys that are missing from
    the definition schema or whose raw entry has a [performance]
    sub-object; its length is [fused_count + created_count]. *)
Theorem touched_variables_listed (now : clock) (pd d0 : dict)
    (st : fuse_state) :
  NoDup (dict_keys pd) ->
  run_loop now (JObj pd) (JObj d0) = Ok st ->
  variables_with_performance st
    = filter (fun k => absent d0 k || has_performance pd k)%bool
        (dict_keys pd) /\
  NoDup (variables_with_performance st) /\
  length (variables_with_performance st)
    = fused_count st + created_count st /\
  (forall v,
     In v (variables_with_performance st) <->
     In v (dict_keys pd) /\
     (dict_mem v d0 = false \/ has_performance pd v = true)).
Proof.
  intros Hnd H. apply run_loop_Ok in H.
  destruct (fuse_loop_counts now pd _ (initial_state (JObj d0)) d0 st
              Hnd eq_refl H) as (d' & _ & _ & _ & Hc & Hw & Hf & _).
  simpl in Hc, Hw, Hf. rewrite Hw. split; [reflexivity|].
  split; [now apply NoDup_filter|]. split.
  - rewrite Hc, Hf, filter_absent_or_length. lia.
  - intros v. rewrite filter_In. unfold absent.
    rewrite orb_true_iff, negb_true_iff. tauto.
Qed.

Lemma touched_variables_listed_witness :
  NoDup (dict_keys bare_first_performance) /\
  run_loop example_clock (JObj bare_first_performance) (JObj [])
    = Ok bare_first_state /\
  length (variables_with_performance bare_first_state)
    = fused_count bare_first_state + created_count bare_first_state.
Proof.
  assert (Hnd : NoDup (dict_keys bare_first_performance))
    by (simpl; nodup_strings).
  split; [exact Hnd|]. split; [reflexivity|].
  destruct (touched_variables_listed example_clock bare_first_performance []
              bare_first_state Hnd eq_refl) as (_ & _ & Hlen & _).
  exact Hlen.
Defined.

Lemma converted_keys (now : clock) (t : nat) (items converted : dict)
    (t' : nat) :
  NoDup (dict_keys items) ->
  convert_performance_structure now t (JObj items) = Ok (converted, t') ->
  dict_keys converted = dict_keys (filter included items).
Proof.
  intros Hnd H.
  destruct (convert_performance_structure_Ok _ _ _ _ _ H)
    as (items' & [= <-] & _ & Hloop).
  apply (convert_loop_keys (now t ++ "Z")%string items [] converted Hnd);
    [reflexivity | exact Hloop].
Qed.

(** X13. When the first key of the dataset has a [performance] record,
    the subject IDs the summary reports are the subjects of that record the
    normaliser keeps, in the order of the raw record, whether the variable
    was known or had to be created. *)
Theorem reported_subjects_of_first_key (now : clock) (pd rest d0 : dict)
    (st : fuse_state) (k : string) (entry : json) (items : dict) :
  pd = (k, entry) :: rest ->
  NoDup (dict_keys pd) ->
  run_loop now (JObj pd) (JObj d0) = Ok st ->
  py_getitem entry "performance" = Ok (JObj items) ->
  NoDup (dict_keys items) ->
  count_patients st = Ok (dict_keys (filter included items)).
Proof.
  intros Hpd Hnd H Hperf Hitems.
  destruct (recorded_reportable _ _ _ _ Hnd H) as (d' & Hd' & Hrep).
  pose proof H as Hloop. apply run_loop_Ok in Hloop.
  destruct (fuse_loop_final_value now pd _ (initial_state (JObj d0)) d0 st
              Hnd eq_refl Hloop) as (d1 & Hd1 & Hval).
  destruct (fuse_loop_counts now pd _ (initial_state (JObj d0)) d0 st
              Hnd eq_refl Hloop) as (d2 & _ & _ & _ & _ & Hw & _).
  rewrite Hd' in Hd1. injection Hd1 as <-. simpl in Hw.
  assert (Hentry : dict_get k pd = Some entry).
  { rewrite Hpd. simpl. now rewrite String.eqb_refl. }
  assert (Hhas : py_in "performance" entry = Ok true).
  { apply py_getitem_Ok in Hperf. destruct Hperf as (fields & -> & Hget).
    simpl. unfold dict_mem. now rewrite Hget. }
  assert (Hhp : has_performance pd k = true).
  { unfold has_performance. now rewrite Hentry, Hhas. }
  assert (Hfirst : firstn 1 (variables_with_performance st) = [k]).
  { assert (Hkeys : dict_keys pd = k :: dict_keys rest)
      by (rewrite Hpd; reflexivity).
    rewrite Hw, Hkeys. simpl. rewrite Hhp, orb_true_r. reflexivity. }
  unfold count_patients. rewrite Hd', Hfirst.
  rewrite scan_patients_reportable.
  2:{ intros v [<-|[]]. apply Hrep. left. rewrite Hw. apply filter_In.
      split; [apply (dict_get_keys _ _ _ Hentry)|].
      now rewrite Hhp, orb_true_r. }
  f_equal.
  destruct (Hval k (dict_get_keys _ _ _ Hentry)) as (entry' & Hentry' & Hcase).
  rewrite Hentry in Hentry'. injection Hentry' as <-.
  assert (Hattached : exists conv t,
            convert_performance_structure now t (JObj items) = Ok (conv, S t) /\
            has_attached_performance d' k = true /\
            performance_keys d' k = dict_keys conv).
  { unfold has_attached_performance, performance_keys.
    destruct Hcase as [(_ & Hp & _)
                      |[(_ & _ & pdat & conv & def & t & Hpdat & Hc & _ & Hget)
                      |[(_ & Hp & _)
                      |(_ & _ & pdat & conv & fields & t & Hpdat & Hc & Hph & Hget)]]];
      try congruence;
      rewrite Hperf in Hpdat; injection Hpdat as <-;
      exists conv, t; (split; [exact Hc|]); rewrite Hget.
    - unfold dict_mem. rewrite dict_get_set_same. now split.
    - unfold create_placeholder_variable in Hph. injection Hph as <-.
      now split. }
  destruct Hattached as (conv & t & Hc & Hatt & Hkeys).
  unfold spec_subject_ids. simpl. rewrite Hatt, Hkeys.
  now apply (converted_keys now t items conv (S t)).
Qed.

Lemma reported_subjects_of_first_key_witness :
  NoDup (dict_keys example_performance) /\
  count_patients example_state = Ok ["p1"].
Proof.
  assert (Hnd : NoDup (dict_keys example_performance))
    by (simpl; nodup_strings).
  split; [exact Hnd|].
  apply (reported_subjects_of_first_key example_clock example_performance
           [("weight",
             JObj [("performance",
                    JObj [("p1", JObj [("unmatched",
                                        JObj [("missing_docs",
                                               JBool true)])])])])]
           example_definitions example_state "age"
           (JObj [("performance",
                   JObj [("p1", JObj [("matched", JBool true)])])])
           [("p1", JObj [("matched", JBool true)])]
           eq_refl Hnd eq_refl eq_refl).
  simpl. nodup_strings.
Defined.

(* ================================================================== *)
(** ** [unique_destination_name] *)
(* ================================================================== *)

Lemma string_length_append (a b : string) :
  String.length (a ++ b)%string = String.length a + String.length b.
Proof. induction a as [|c a IH]; simpl; [reflexivity | now rewrite IH]. Qed.

Lemma string_append_inj_l (a x y : string) :
  (a ++ x)%string = (a ++ y)%string -> x = y.
Proof.
  induction a as [|c a IH]; simpl; [tauto|]. intros [= H]. now apply IH.
Qed.

Lemma string_append_inj_r (z : string) :
  forall x y : string, (x ++ z)%string = (y ++ z)%string -> x = y.
Proof.
  induction x as [|c x IH]; intros [|c' y] H; simpl in H.
  - reflexivity.
  - apply (f_equal String.length) in H. simpl in H.
    rewrite string_length_append in H. lia.
  - apply (f_equal String.length) in H. simpl in H.
    rewrite string_length_append in H. lia.
  - injection H as -> H. f_equal. now apply IH.
Qed.

Lemma decimal_inj (i j : nat) : decimal i = decimal j -> i = j.
Proof.
  unfold decimal. intros H.
  apply DecimalNat.Unsigned.to_uint_inj.
  apply (f_equal DecimalString.NilEmpty.uint_of_string) in H.
  rewrite !DecimalString.NilEmpty.usu in H. now injection H.
Qed.

Lemma numbered_name_inj (stem suffix : string -> string) (filename : string)
    (i j : nat) :
  numbered_name stem suffix filename i = numbered_name stem suffix filename j ->
  i = j.
Proof.
  unfold numbered_name. intros H.
  apply string_append_inj_l in H. apply string_append_inj_l in H.
  apply string_append_inj_r in H. now apply decimal_inj.
Qed.

Lemma name_exists_In (dir : list string) (name : string) :
  name_exists dir name = true <-> In name dir.
Proof.
  unfold name_exists. rewrite existsb_exists. split.
  - intros (x & Hin & Heq). apply String.eqb_eq in Heq. now subst.
  - intros Hin. exists name. split; [exact Hin | apply String.eqb_refl].
Qed.

(** What the loop returns is the first free numbered name from [i] on; when
    it gives up, every numbered name it tried exists. *)
Lemma numbered_loop_spec (stem suffix : string -> string) (dir : list string)
    (filename : string) :
  forall fuel i,
    match numbered_loop stem suffix dir filename fuel i with
    | Some name =>
        exists k,
          k < fuel /\
          name = numbered_name stem suffix filename (i + k) /\
          name_exists dir name = false /\
          forall j, i <= j < i + k ->
            name_exists dir (numbered_name stem suffix filename j) = true
    | None =>
        forall j, i <= j < i + fuel ->
          name_exists dir (numbered_name stem suffix filename j) = true
    end.
Proof.
  induction fuel as [|fuel IH]; intros i; simpl.
  - intros j Hj. lia.
  - destruct (name_exists dir (numbered_name stem suffix filename i)) eqn:Hex.
    + specialize (IH (S i)).
      destruct (numbered_loop stem suffix dir filename fuel (S i)) as [name|].
      * destruct IH as (k & Hk & Hname & Hfree & Hbusy).
        exists (S k). split; [lia|]. split; [now rewrite Nat.add_succ_r|].
        split; [exact Hfree|]. intros j Hj.
        destruct (Nat.eq_dec j i) as [->|Hne]; [exact Hex|].
        apply Hbusy. lia.
      * intros j Hj.
        destruct (Nat.eq_dec j i) as [->|Hne]; [exact Hex|].
        apply IH. lia.
    + exists 0. split; [lia|]. rewrite Nat.add_0_r.
      split; [reflexivity|]. split; [exact Hex|]. intros j Hj. lia.
Qed.

(** A folder cannot hold more numbered names than it has entries. *)
Lemma numbered_loop_finds (stem suffix : string -> string)
    (dir : list string) (filename : string) (fuel i : nat) :
  length dir < fuel ->
  numbered_loop stem suffix dir filename fuel i <> None.
Proof.
  intros Hfuel Hnone.
  pose proof (numbered_loop_spec stem suffix dir filename fuel i) as Hspec.
  rewrite Hnone in Hspec.
  assert (Hincl : incl (map (numbered_name stem suffix filename) (seq i fuel))
                    dir).
  { intros name Hin. apply in_map_iff in Hin. destruct Hin as (j & <- & Hj).
    apply in_seq in Hj. apply name_exists_In. apply Hspec. lia. }
  assert (Hnd : NoDup (map (numbered_name stem suffix filename) (seq i fuel))).
  { apply NoDup_map_NoDup_ForallPairs; [|apply seq_NoDup].
    intros a b _ _ Heq. now apply numbered_name_inj in Heq. }
  pose proof (NoDup_incl_length Hnd Hincl) as Hlen.
  rewrite length_map, length_seq in Hlen. lia.
Qed.


(** X14. Given more rounds than the folder has entries, the search for a
    destination name always ends, with a name the folder does not hold: the
    file name itself when it is free, otherwise [stem (i)suffix] for the
    least counter [i >= 1] whose name is free; that counter is at most the
    number of entries plus one. *)
Theorem unique_destination_name_fresh (stem suffix : string -> string)
    (fuel : nat) (dir : list string) (filename : string) :
  length dir < fuel ->
  exists name,
    unique_destination_name stem suffix fuel dir filename = Some name /\
    name_exists dir name = false /\
    (name_exists dir filename = false -> name = filename) /\
    (name_exists dir filename = true ->
       exists i,
         1 <= i <= length dir + 1 /\
         name = numbered_name stem suffix filename i /\
         forall j, 1 <= j < i ->
           name_exists dir (numbered_name stem suffix filename j) = true).
Proof.
  intros Hfuel. unfold unique_destination_name.
  destruct (name_exists dir filename) eqn:Hex.
  - pose proof (numbered_loop_spec stem suffix dir filename fuel 1) as Hspec.
    pose proof (numbered_loop_finds stem suffix dir filename fuel 1 Hfuel)
      as Hsome.
    destruct (numbered_loop stem suffix dir filename fuel 1) as [name|];
      [|now contradiction Hsome].
    destruct Hspec as (k & Hk & Hname & Hfree & Hbusy).
    exists name. split; [reflexivity|]. split; [exact Hfree|].
    split; [discriminate|]. intros _. exists (1 + k).
    split; [|split; [exact Hname | exact Hbusy]].
    split; [lia|].
    (* the [k] busy names are pairwise distinct entries of the folder *)
    assert (Hincl : incl (map (numbered_name stem suffix filename) (seq 1 k))
                      dir).
    { intros x Hin. apply in_map_iff in Hin. destruct Hin as (j & <- & Hj).
      apply in_seq in Hj. apply name_exists_In. apply Hbusy. lia. }
    assert (Hnd : NoDup (map (numbered_name stem suffix filename) (seq 1 k))).
    { apply NoDup_map_NoDup_ForallPairs; [|apply seq_NoDup].
      intros a b _ _ Heq. now apply numbered_name_inj in Heq. }
    pose proof (NoDup_incl_length Hnd Hincl) as Hlen.
    rewrite length_map, length_seq in Hlen. lia.
  - exists filename. split; [reflexivity|]. split; [exact Hex|].
    split; [reflexivity | discriminate].
Qed.

Lemma unique_destination_name_fresh_witness :
  unique_destination_name example_stem example_suffix 3
    ["notes.txt"; "notes (1).txt"] "notes.txt"
  = Some "notes (2).txt" /\
  exists name,
    unique_destination_name example_stem example_suffix 3
      ["notes.txt"; "notes (1).txt"] "notes.txt" = Some name /\
    name_exists ["notes.txt"; "notes (1).txt"] name = false.
Proof.
  split; [reflexivity|].
  destruct (unique_destination_name_fresh example_stem example_suffix 3
              ["notes.txt"; "notes (1).txt"] "notes.txt")
    as (name & Hname & Hfree & _).
  - simpl. lia.
  - exists name. split; [exact Hname | exact Hfree].
Defined.

Lemma numbered_loop_more_fuel (stem suffix : string -> string)
    (dir : list string) (filename name : string) :
  forall fuel fuel' i,
    fuel <= fuel' ->
    numbered_loop stem suffix dir filename fuel i = Some name ->
    numbered_loop stem suffix dir filename fuel' i = Some name.
Proof.
  induction fuel as [|fuel IH]; intros fuel' i Hle H; simpl in H.
  - discriminate.
  - destruct fuel' as [|fuel']; [lia|]. simpl.
    destruct (name_exists dir (numbered_name stem suffix filename i));
      [|exact H].
    apply IH; [lia | exact H].
Qed.

(** The destination name found does not depend on how many rounds the
    search is allowed, as long as they are more than the folder has
    entries. *)
Lemma unique_destination_name_stable (stem suffix : string -> string)
    (fuel fuel' : nat) (dir : list string) (filename : string) :
  length dir < fuel -> length dir < fuel' ->
  unique_destination_name stem suffix fuel dir filename
  = unique_destination_name stem suffix fuel' dir filename /\
  unique_destination_name stem suffix fuel dir filename <> None.
Proof.
  intros Hfuel Hfuel'. unfold unique_destination_name.
  destruct (name_exists dir filename); [|split; [reflexivity | discriminate]].
  pose proof (numbered_loop_finds stem suffix dir filename fuel 1 Hfuel) as H1.
  pose proof (numbered_loop_finds stem suffix dir filename fuel' 1 Hfuel')
    as H2.
  split; [|exact H1].
  destruct (numbered_loop stem suffix dir filename fuel 1) as [n1|] eqn:E1;
    [|now contradiction H1].
  destruct (numbered_loop stem suffix dir filename fuel' 1) as [n2|] eqn:E2;
    [|now contradiction H2].
  destruct (Nat.le_ge_cases fuel fuel') as [Hle|Hle].
  - rewrite (numbered_loop_more_fuel _ _ _ _ _ _ _ _ Hle E1) in E2.
    exact E2.
  - rewrite (numbered_loop_more_fuel _ _ _ _ _ _ _ _ Hle E2) in E1.
    now rewrite E1.
Qed.

Lemma unique_destination_name_stable_witness :
  unique_destination_name example_stem example_suffix 3
    ["notes.txt"; "notes (1).txt"] "notes.txt"
  = unique_destination_name example_stem example_suffix 50
      ["notes.txt"; "notes (1).txt"] "notes.txt".
Proof.
  apply (unique_destination_name_stable example_stem example_suffix 3 50
           ["notes.txt"; "notes (1).txt"] "notes.txt"); simpl; lia.
Defined.

(* ================================================================== *)
(** ** [copy_all_files_to_target] *)
(* ================================================================== *)

Lemma unique_destination_name_free (stem suffix : string -> string)
    (fuel : nat) (dir : list string) (filename name : string) :
  unique_destination_name stem suffix fuel dir filename = Some name ->
  ~ In name dir.
Proof.
  unfold unique_destination_name. intros H Hin.
  apply name_exists_In in Hin.
  destruct (name_exists dir filename) eqn:Hex.
  - pose proof (numbered_loop_spec stem suffix dir filename fuel 1) as Hspec.
    rewrite H in Hspec. destruct Hspec as (k & _ & _ & Hfree & _). congruence.
  - injection H as <-. congruence.
Qed.

Lemma adds_refl (s : copy_state) : adds s s.
Proof.
  exists []. rewrite app_nil_r. simpl.
  split; [reflexivity|]. split; [lia|]. split; [constructor|].
  intros x [].
Qed.

Lemma adds_trans (s s1 s2 : copy_state) : adds s s1 -> adds s1 s2 -> adds s s2.
Proof.
  intros (n1 & Ht1 & Hc1 & Hnd1 & Hf1) (n2 & Ht2 & Hc2 & Hnd2 & Hf2).
  exists (n1 ++ n2). rewrite Ht2, Ht1, Hc2, Hc1, length_app, app_assoc.
  repeat split; try lia.
  - apply NoDup_app; [assumption | assumption |].
    intros x Hx1 Hx2. apply (Hf2 x Hx2). rewrite Ht1.
    apply in_or_app. now right.
  - intros x Hx Hin. apply in_app_or in Hx. destruct Hx as [Hx|Hx].
    + now apply (Hf1 x Hx).
    + apply (Hf2 x Hx). rewrite Ht1. apply in_or_app. now left.
Qed.

Lemma copy_file_adds (stem suffix : string -> string) (fuel : nat)
    (target_name : string) (rel : list string) (fname : string)
    (s s' : copy_state) :
  copy_file stem suffix fuel target_name rel fname s = Some s' -> adds s s'.
Proof.
  unfold copy_file.
  destruct (inside_target target_name rel fname).
  - intros [= <-]. apply adds_refl.
  - destruct (unique_destination_name stem suffix fuel (target_listing s)
                fname) as [dst|] eqn:Hdst; [|discriminate].
    intros [= <-]. exists [dst]. simpl.
    split; [reflexivity|]. split; [lia|]. split.
    + constructor; [intros [] | constructor].
    + intros x [<-|[]]. now apply unique_destination_name_free in Hdst.
Qed.

Lemma copy_files_adds (stem suffix : string -> string) (fuel : nat)
    (target_name : string) (rel : list string) :
  forall files s s', copy_files stem suffix fuel target_name rel files s = Some s' -> adds s s'.
Proof.
    induction files as [|fname files IH]; simpl; intros s s' H.
  - injection H as <-. apply adds_refl.
  - destruct (copy_file stem suffix fuel target_name rel fname s)
      as [s1|] eqn:Hone; [|discriminate].
    apply adds_trans with s1; [now apply (copy_file_adds stem suffix fuel target_name rel fname)|].
    now apply IH.
Qed.

Lemma descend_adds (stem suffix : string -> string) (fuel : nat)
    (target_name : string) (rel : list string) :
  forall dirs,
    Forall (fun d => forall rel s s',
              (copy_tree stem suffix fuel target_name) rel (snd d) s = Some s' -> adds s s') dirs ->
    forall pruned s s',
      descend_with target_name (copy_tree stem suffix fuel target_name) rel dirs pruned s = Some s' ->
      adds s s'.
Proof.
  induction dirs as [|[d sub] dirs IH]; intros Hall pruned s s' H; simpl in H.
  - injection H as <-. apply adds_refl.
  - inversion Hall as [|? ? Hsub Hrest]; subst. simpl in Hsub.
    destruct (negb pruned && String.eqb d target_name)%bool.
    + now apply (IH Hrest true).
    + destruct ((copy_tree stem suffix fuel target_name) (rel ++ [d]) sub s) as [s1|] eqn:Hwalk;
        [|discriminate].
      apply adds_trans with s1; [now apply (Hsub (rel ++ [d]))|].
      now apply (IH Hrest pruned).
Qed.

Lemma copy_tree_adds (stem suffix : string -> string) (fuel : nat)
    (target_name : string) (t : tree) :
  forall rel s s', (copy_tree stem suffix fuel target_name) rel t s = Some s' -> adds s s'.
Proof.
  induction t as [files dirs IH] using tree_induction.
  intros rel s s' H. simpl in H.
  destruct (copy_files stem suffix fuel target_name rel files s)
    as [s1|] eqn:Hfiles; [|discriminate].
  apply adds_trans with s1; [now apply (copy_files_adds stem suffix fuel target_name rel files)|].
  now apply (descend_adds stem suffix fuel target_name rel dirs IH false).
Qed.






(** X15. Flattening never overwrites: the entries of the target folder at
    the end are those it held, followed by one new entry per file copied;
    the new entries are pairwise distinct and distinct from the old ones, so
    that a target folder without duplicates stays so, and the number
    returned is the number of entries added. *)
Theorem copy_never_overwrites (stem suffix : string -> string) (fuel : nat)
    (target_name : string) (target : list string) (base : tree)
    (listing : list string) (n : nat) :
  copy_all_files_to_target stem suffix fuel target_name target base
    = Some (listing, n) ->
  exists new,
    listing = target ++ new /\
    length new = n /\
    NoDup new /\
    (forall x, In x new -> ~ In x target) /\
    (NoDup target -> NoDup listing).
Proof.
  unfold copy_all_files_to_target.
  destruct (copy_tree stem suffix fuel target_name [] base (mkCopy target 0))
    as [s|] eqn:Hwalk; [|discriminate].
  intros [= <- <-].
  destruct (copy_tree_adds stem suffix fuel target_name base [] _ _ Hwalk)
    as (new & Ht & Hc & Hnd & Hfree).
  simpl in Ht, Hc, Hfree. exists new.
  split; [exact Ht|]. split; [lia|]. split; [exact Hnd|].
  split; [exact Hfree|].
  intros Hnd0. rewrite Ht. apply NoDup_app; try assumption.
  intros x Hx Hx'. now apply (Hfree x Hx').
Qed.

Lemma copy_never_overwrites_witness :
  copy_all_files_to_target example_stem example_suffix 10 "all_files" []
    example_tree
  = Some (["notes.txt"; "run.py"; "notes (1).txt"], 3) /\
  NoDup ["notes.txt"; "run.py"; "notes (1).txt"].
Proof.
  split; [reflexivity|].
  destruct (copy_never_overwrites example_stem example_suffix 10 "all_files"
              [] example_tree ["notes.txt"; "run.py"; "notes (1).txt"] 3
              eq_refl) as (new & _ & _ & _ & _ & Hnd).
  apply Hnd. constructor.
Defined.



Lemma descend_with_no_target (stem suffix : string -> string) (fuel : nat)
    (target_name : string) (rel : list string) :
  forall dirs pruned s,
    ~ In target_name (map fst dirs) ->
    descend_with target_name (copy_tree stem suffix fuel target_name)
      rel dirs pruned s
    = descend_with target_name (copy_tree stem suffix fuel target_name)
        rel dirs true s.
Proof.
  induction dirs as [|[d sub] dirs IH]; intros pruned s Hnot; simpl.
  - reflexivity.
  - assert (Hd : String.eqb d target_name = false).
    { apply String.eqb_neq. intros ->. apply Hnot. now left. }
    rewrite Hd, andb_false_r. simpl.
    destruct (copy_tree stem suffix fuel target_name (rel ++ [d]) sub s);
      [|reflexivity].
    apply IH. intros Hin. apply Hnot. now right.
Qed.

Lemma descend_with_skips_target (stem suffix : string -> string) (fuel : nat)
    (target_name : string) (rel : list string) (sub : tree)
    (after : list (string * tree)) :
  ~ In target_name (map fst after) ->
  forall before s,
    ~ In target_name (map fst before) ->
    descend_with target_name (copy_tree stem suffix fuel target_name)
      rel (before ++ (target_name, sub) :: after) false s
    = descend_with target_name (copy_tree stem suffix fuel target_name)
        rel (before ++ after) false s.
Proof.
  intros Hafter.
  induction before as [|[d t] before IH]; intros s Hnot; simpl.
  - rewrite String.eqb_refl. simpl. symmetry.
    now apply descend_with_no_target.
  - assert (Hd : String.eqb d target_name = false).
    { apply String.eqb_neq. intros ->. apply Hnot. now left. }
    rewrite Hd. simpl.
    destruct (copy_tree stem suffix fuel target_name (rel ++ [d]) t s);
      [|reflexivity].
    apply IH. intros Hin. apply Hnot. now right.
Qed.

(** X17. A sub-folder that bears the name of the target folder is pruned
    from the walk: whatever it holds, files or folders, the copy behaves as
    if it were not there.  (Names are compared, not paths: this holds for
    such a sub-folder of any folder of the tree.) *)
Theorem target_folder_is_pruned (stem suffix : string -> string) (fuel : nat)
    (target_name : string) (rel files : list string)
    (before after : list (string * tree)) (sub : tree) (s : copy_state) :
  ~ In target_name (map fst before) ->
  ~ In target_name (map fst after) ->
  copy_tree stem suffix fuel target_name rel
    (Folder files (before ++ (target_name, sub) :: after)) s
  = copy_tree stem suffix fuel target_name rel
      (Folder files (before ++ after)) s.
Proof.
  intros Hbefore Hafter. simpl.
  destruct (copy_files stem suffix fuel target_name rel files s);
    [|reflexivity].
  now apply descend_with_skips_target.
Qed.

Lemma target_folder_is_pruned_witness :
  copy_tree example_stem example_suffix 10 "all_files" [] example_tree
    (mkCopy [] 0)
  = copy_tree example_stem example_suffix 10 "all_files" []
      (Folder ["notes.txt"; "run.py"] [("docs", Folder ["notes.txt"] [])])
      (mkCopy [] 0).
Proof.
  apply (target_folder_is_pruned example_stem example_suffix 10 "all_files"
           [] ["notes.txt"; "run.py"] []
           [("docs", Folder ["notes.txt"] [])] (Folder ["notes.txt"] [])
           (mkCopy [] 0)).
  - simpl. tauto.
  - simpl. intros [H|[]]. discriminate H.
Defined.
